(** * Pay2Win front end: shallow embedding and verified properties

    The client pages (React components in TypeScript) are embedded handler by
    handler: a handler is a function from the component state it reads to the
    list of effects it performs (state setters, API requests, storage
    updates), with the responses of the REST backend supplied by an oracle.
    The points ledger that the pages talk to lives behind the REST interface;
    it is embedded in the module [Ledger] from its written description. *)

From Stdlib Require Import ZArith QArith Qround String Ascii List Lia Bool.
From stdpp Require Import base option list gmap strings pretty.
Import ListNotations.

Local Open Scope string_scope.
Local Open Scope Z_scope.

(* ================================================================== *)
(** ** JavaScript values used by the pages *)
(* ================================================================== *)

Module Js.

(** A JavaScript number that holds an integer or [NaN] ([None]).  Every
    comparison with [NaN] is false. *)
Definition num := option Z.

Definition lt (a b : num) : bool :=
  match a, b with Some x, Some y => x <? y | _, _ => false end.
Definition gt (a b : num) : bool := lt b a.
Definition le (a b : num) : bool :=
  match a, b with Some x, Some y => x <=? y | _, _ => false end.
Definition mul (a b : num) : num :=
  match a, b with Some x, Some y => Some (x * y) | _, _ => None end.
Definition isNaN (a : num) : bool :=
  match a with Some _ => false | None => true end.

(** [x || 0] on a number: [0], [NaN] and [undefined] are falsy. *)
Definition or0 (a : num) : Z := default 0 a.

(** Template-literal rendering of a number. *)
Definition show (a : num) : string :=
  match a with Some x => pretty x | None => "NaN" end.

Definition is_ws (a : ascii) : bool :=
  let n := nat_of_ascii a in
  (Nat.eqb n 32 || Nat.eqb n 9 || Nat.eqb n 10 || Nat.eqb n 11
   || Nat.eqb n 12 || Nat.eqb n 13)%bool.

Fixpoint skip_ws (s : string) : string :=
  match s with
  | String a r => if is_ws a then skip_ws r else s
  | EmptyString => s
  end.

Definition digit_of (radix : Z) (a : ascii) : option Z :=
  let n := Z.of_nat (nat_of_ascii a) in
  let d :=
    if (48 <=? n) && (n <=? 57) then Some (n - 48)
    else if (97 <=? n) && (n <=? 122) then Some (n - 87)
    else if (65 <=? n) && (n <=? 90) then Some (n - 55)
    else None in
  match d with
  | Some v => if v <? radix then Some v else None
  | None => None
  end.

(** Longest prefix of digits; [acc] is [None] until a digit was read. *)
Fixpoint digits (radix : Z) (s : string) (acc : num) : num :=
  match s with
  | String a r =>
      match digit_of radix a with
      | Some d => digits radix r (Some (radix * or0 acc + d))
      | None => acc
      end
  | EmptyString => acc
  end.

Definition unsigned (s : string) : num :=
  match s with
  | String "0" (String "x" r) | String "0" (String "X" r) => digits 16 r None
  | _ => digits 10 s None
  end.

(** [parseInt(s)] with no radix argument: leading (ASCII) white space, an
    optional sign, an optional [0x] prefix, then the longest run of
    digits; [NaN] when there is none.  Numbers are kept exact. *)
Definition parseInt (s : string) : num :=
  match skip_ws s with
  | String "-" r => Z.opp <$> unsigned r
  | String "+" r => unsigned r
  | t => unsigned t
  end.

(** A timestamp as [new Date(field)] reads it: the time value in
    milliseconds, or [NaN] ([None]) for an invalid date. *)
Definition date := option Z.

(** [Promise] outcomes. *)
Inductive promise (A E : Type) : Type :=
| Resolved (a : A)
| Rejected (e : E).
Arguments Resolved {A E} a.
Arguments Rejected {A E} e.

End Js.

(* ================================================================== *)
(** ** Type definitions ([@/types]) *)
(* ================================================================== *)

Inductive UserRole := regular | cashier | manager | superuser.

Definition role_name (r : UserRole) : string :=
match r with
| regular => "regular"
| cashier => "cashier"
| manager => "manager"
| superuser => "superuser"
end.

#[global] Instance UserRole_eq_dec : EqDecision UserRole.
Proof. solve_decision. Defined.

Module User.
Record t := mk {
  id : Z;
  utorid : string;
  name : string;
  email : string;
  role : UserRole;
  points : Z;
  verified : bool;
  suspicious : option bool
}.
End User.

Inductive TransactionType := purchase | adjustment | redemption | transfer | event.

#[global] Instance TransactionType_eq_dec : EqDecision TransactionType.
Proof. solve_decision. Defined.

Inductive PromotionType := automatic | one_time.

Module Promotion.
Record t := mk {
  id : Z;
  name : string;
  type : PromotionType;
  startTime : option Js.date;
  endTime : option Js.date
}.
End Promotion.

Module Event.
Record t := mk {
  id : Z;
  name : string;
  pointsRemain : option Z
}.
End Event.

Module Guest.
Record t := mk { id : Z; utorid : string; name : string }.
End Guest.


Module Transaction.
Record t := mk {
  id : Z;
  utorid : option string;
  type : TransactionType;
  amount : Z;
  redeemed : option Z;
  relatedId : option Z;
  promotionIds : list Z;
  suspicious : option bool;
  remark : string;
  createdBy : string;
  processedBy : option string
}.
End Transaction.

(** [!x] on an optional number and on an optional string. *)
Definition falsy_num (x : option Z) : bool :=
  match x with Some v => v =? 0 | None => true end.
Definition falsy_str (x : option string) : bool :=
  match x with Some v => String.eqb v "" | None => true end.

(* ================================================================== *)
(** ** Requests, errors and page effects *)
(* ================================================================== *)

Inductive Method := GET | POST | PATCH | DELETE.

(** The routes the embedded handlers build with template strings. *)
Inductive Endpoint :=
| UsersMe                                    (* /users/me *)
| UsersById (id : Z)                         (* /users/${id} *)
| UsersLookup (utorid : string)              (* /users/lookup/${utorid} *)
| UserTransactions (id : Z)                  (* /users/${id}/transactions *)
| MyTransactions                             (* /users/me/transactions *)
| TransactionProcessed (id : string)         (* /transactions/${id}/processed *)
| EventTransactions (id : Z).                (* /events/${id}/transactions *)

Inductive Json :=
| JBool (b : bool)
| JNum (n : Js.num)
| JStr (s : string).

(** [body] holds the JSON body, or for a [GET] the query parameters. *)
Record Request := mkRequest {
  method : Method;
  endpoint : Endpoint;
  body : list (string * Json)
}.

(** What the handlers read off a rejected request: [error.response?.status],
    [error.response?.data?.error] and [error.message]. *)
Record AxiosError := mkAxiosError {
  status : option Z;
  data_error : option string;
  message : string
}.

Inductive MessageType := success | error.

Record Message := mkMessage { type : MessageType; text : string }.

Inductive Effect :=
| SetLoading (b : bool)
| SetActionLoading (b : bool)
| SetLoadingRedemption (b : bool)
| SetMessage (m : option Message)
| SetUser (u : User.t)
| SetPendingRedemption (t : option Transaction.t)
| Call (r : Request)
| RemoveItem (key : string)
| ResetForm
| RefreshUser
| Refetch
| RedirectLater (path : string).

(** [a || b] on optional strings (the empty string is falsy). *)
Definition or_str (a : option string) (b : string) : string :=
  match a with
  | Some s => if String.eqb s "" then b else s
  | None => b
  end.

(* ================================================================== *)
(** ** [src/lib/api.ts]: the response interceptor *)
(* ================================================================== *)

Module Api.

(** The browser state the interceptor touches; [None] stands for
    [typeof window === 'undefined']. *)
Record Window := mkWindow {
  localStorage : gmap string string;
  pathname : string
}.

Definition removeItem (k : string) (w : Window) : Window :=
  mkWindow (delete k (localStorage w)) (pathname w).

Definition navigate (path : string) (w : Window) : Window :=
  mkWindow (localStorage w) path.

Definition onRejected (w : option Window) (e : AxiosError)
  : option Window * Js.promise unit AxiosError :=
  let w' :=
    match w with
    | Some win =>
        if bool_decide (status e = Some 401) then
          let currentPath := pathname win in
          if negb (String.eqb currentPath "/login") then
            Some (navigate "/login"
                    (removeItem "tokenExpiry" (removeItem "token" win)))
          else Some win
        else Some win
    | None => None
    end in
  (w', Js.Rejected e).

End Api.

(* ================================================================== *)
(** ** [src/contexts/AuthContext.tsx]: token check and user fetch *)
(* ================================================================== *)

Module Auth.

(** The payload field the provider reads; [exp] is [None] when the token
    carries no expiry, so that [decoded.exp * 1000] is [NaN]. *)
Record JwtPayload := mkPayload { exp : Js.num }.

Section Provider.

(** [jwtDecode] of the jwt-decode package; [None] when it throws. *)
Variable jwtDecode : string -> option JwtPayload.
(** [Date.now()]. *)
Variable now : Z.
(** Outcome of [GET /users/me]. *)
Variable getMe : Js.promise User.t AxiosError.

Definition isTokenExpired (token : string) : bool :=
  match jwtDecode token with
  | Some decoded => Js.lt (Js.mul (exp decoded) (Some 1000)) (Some now)
  | None => true
  end.

(** The early [return] sits inside the [try], so the [finally] block
    clears the loading flag a second time. *)
Definition fetchUser (localStorage : gmap string string) : list Effect :=
  let token := localStorage !! "token" in
  (if falsy_str token || from_option isTokenExpired false token then
     [SetLoading false]
   else
     match getMe with
     | Js.Resolved data => [Call (mkRequest GET UsersMe []); SetUser data]
     | Js.Rejected _ =>
         [Call (mkRequest GET UsersMe []); RemoveItem "token";
          RemoveItem "tokenExpiry"]
     end)
  ++ [SetLoading false].

End Provider.

End Auth.

(* ================================================================== *)
(** ** Promotion pages: [getPromotionStatus] *)
(* ================================================================== *)

Module PromotionPage.

Record Status := mkStatus { label : string; color : string }.

Definition getPromotionStatus (now : Z) (promo : Promotion.t) : Status :=
  match Promotion.endTime promo with
  | None => mkStatus "Unknown" "bg-gray-100 text-gray-800"
  | Some end_ =>
      if Js.gt (Some now) end_
      then mkStatus "Expired" "bg-gray-100 text-gray-800"
      else mkStatus "Active" "bg-green-100 text-green-800"
  end.

(** The window check as the specification words it, for comparison:
    [startTime ≤ T ≤ endTime], or [T ≤ endTime] when there is no
    [startTime]. *)
Definition windowActive (T : Z) (promo : Promotion.t) : bool :=
  match Promotion.endTime promo with
  | Some (Some e) =>
      match Promotion.startTime promo with
      | Some (Some st) => (st <=? T) && (T <=? e)
      | Some None => false
      | None => T <=? e
      end
  | _ => false
  end.

End PromotionPage.

(* ================================================================== *)
(** ** Manager user detail page: [canPromoteTo], [handleToggleVerified] *)
(* ================================================================== *)

Module ManagerUserDetailPage.

Definition canPromoteTo (user currentUser : option User.t) (role : string)
  : bool :=
  match user, currentUser with
  | Some u, Some cu =>
      if User.id u =? User.id cu then false
      else if bool_decide (User.role cu = superuser) then
        negb (String.eqb role (role_name (User.role u)))
      else if bool_decide (User.role cu = manager) then
        (bool_decide (User.role u = regular) && String.eqb role "cashier")
        || (bool_decide (User.role u = cashier) && String.eqb role "regular")
      else false
  | _, _ => false
  end.

Section Handlers.

(** Outcome of the [PATCH /users/${id}] the handler sends. *)
Variable patchUser : Request -> Js.promise unit AxiosError.

Definition handleToggleVerified (user : option User.t) : list Effect :=
  match user with
  | None => []
  | Some u =>
      [SetActionLoading true; SetMessage None] ++
      (if User.verified u then
         [SetMessage (Some (mkMessage error
            "Cannot unverify users. Users can only be verified, not unverified."))]
       else
         let req := mkRequest PATCH (UsersById (User.id u))
                      [("verified", JBool true)] in
         match patchUser req with
         | Js.Resolved _ =>
             [Call req;
              SetMessage (Some (mkMessage success "User verified successfully!"));
              Refetch]
         | Js.Rejected e =>
             [Call req;
              SetMessage (Some (mkMessage error
                (or_str (data_error e) "Failed to update verification status")))]
         end) ++
      [SetActionLoading false]
  end.

Definition handleToggleSuspicious (user : option User.t) : list Effect :=
  match user with
  | None => []
  | Some u =>
      let flag := default false (User.suspicious u) in
      let req := mkRequest PATCH (UsersById (User.id u))
                   [("suspicious", JBool (negb flag))] in
      [SetActionLoading true; SetMessage None] ++
      match patchUser req with
      | Js.Resolved _ =>
          [Call req;
           SetMessage (Some (mkMessage success
             (if flag then "User unmarked as suspicious!"
              else "User marked as suspicious!")));
           Refetch]
      | Js.Rejected e =>
          [Call req;
           SetMessage (Some (mkMessage error
             (or_str (data_error e) "Failed to update suspicious status")))]
      end ++
      [SetActionLoading false]
  end.

(** [window.confirm] as answered by the manager. *)
Variable confirm : string -> bool.

Definition handleUpdateUser (user : option User.t) (email : string)
  : list Effect :=
  match user with
  | None => []
  | Some u =>
      let req := mkRequest PATCH (UsersById (User.id u))
                   [("email", JStr email)] in
      [SetActionLoading true; SetMessage None] ++
      match patchUser req with
      | Js.Resolved _ =>
          [Call req;
           SetMessage (Some (mkMessage success "User updated successfully!"));
           Refetch]
      | Js.Rejected e =>
          [Call req;
           SetMessage (Some (mkMessage error
             (or_str (data_error e) "Failed to update user")))]
      end ++
      [SetActionLoading false]
  end.

Definition handlePromoteUser (user : option User.t) (newRole : string)
  : list Effect :=
  match user with
  | None => []
  | Some u =>
      if negb (confirm ("Are you sure you want to change " ++ User.name u
                        ++ "'s role to " ++ newRole ++ "?"))
      then []
      else
        let req := mkRequest PATCH (UsersById (User.id u))
                     [("role", JStr newRole)] in
        [SetActionLoading true; SetMessage None] ++
        match patchUser req with
        | Js.Resolved _ =>
            [Call req;
             SetMessage (Some (mkMessage success
               ("User role changed to " ++ newRole ++ " successfully!")));
             Refetch]
        | Js.Rejected e =>
            [Call req;
             SetMessage (Some (mkMessage error
               (or_str (data_error e) "Failed to change user role")))]
        end ++
        [SetActionLoading false]
  end.

End Handlers.

End ManagerUserDetailPage.

(* ================================================================== *)
(** ** Transfer page: [handleSubmit] and the verification check *)
(* ================================================================== *)

Inductive View := Blank | NotVerified | Form.

Module TransferPage.

Record UserLookup := mkLookup {
  id : Z;
  utorid : string;
  name : string;
  verified : bool
}.

Record FormData := mkForm { f_utorid : string; f_amount : string; f_remark : string }.

Section Handlers.

Variable lookup : string -> Js.promise UserLookup AxiosError.
Variable post : Request -> Js.promise unit AxiosError.

Definition failure (e : AxiosError) : list Effect :=
  if bool_decide (status e = Some 404) then
    [SetMessage (Some (mkMessage error
       "User not found. Please check the UTORid."))]
  else
    [SetMessage (Some (mkMessage error
       (or_str (data_error e)
          (or_str (Some (message e)) "Failed to transfer points"))))].

Definition handleSubmit (user : option User.t) (formData : FormData)
  : list Effect :=
  let amount := Js.parseInt (f_amount formData) in
  [SetLoading true; SetMessage None] ++
  if Js.le amount (Some 0) then
    [SetMessage (Some (mkMessage error "Amount must be greater than 0"));
     SetLoading false]
  else if Js.gt amount (Some (default 0 (User.points <$> user))) then
    [SetMessage (Some (mkMessage error
       ("Insufficient points. You only have "
        ++ from_option pretty "undefined" (User.points <$> user)
        ++ " points available.")));
     SetLoading false]
  else if bool_decide (Some (f_utorid formData) = (User.utorid <$> user)) then
    [SetMessage (Some (mkMessage error "Cannot transfer to yourself"));
     SetLoading false]
  else
    let lookupReq := mkRequest GET (UsersLookup (f_utorid formData)) [] in
    match lookup (f_utorid formData) with
    | Js.Rejected e => [Call lookupReq] ++ failure e ++ [SetLoading false]
    | Js.Resolved recipientUser =>
        let req := mkRequest POST (UserTransactions (id recipientUser))
                     [("type", JStr "transfer"); ("amount", JNum amount);
                      ("remark", JStr (f_remark formData))] in
        match post req with
        | Js.Rejected e =>
            [Call lookupReq; Call req] ++ failure e ++ [SetLoading false]
        | Js.Resolved _ =>
            [Call lookupReq; Call req;
             SetMessage (Some (mkMessage success
               ("Successfully transferred " ++ Js.show amount ++ " points to "
                ++ name recipientUser ++ " (" ++ utorid recipientUser ++ ")!")));
             ResetForm; RefreshUser;
             RedirectLater "/dashboard/transactions";
             SetLoading false]
        end
    end.

End Handlers.

(** What the component returns: nothing without a user, the "Account Not
    Verified" notice for an unverified user, the form otherwise. *)
Definition render (user : option User.t) : View :=
  match user with
  | None => Blank
  | Some u => if negb (User.verified u) then NotVerified else Form
  end.

End TransferPage.

(* ================================================================== *)
(** ** Redeem page: pending-redemption lookup and request form *)
(* ================================================================== *)

Module RedeemPage.

Record FormData := mkForm { f_amount : string; f_remark : string }.

Definition unprocessed (t : Transaction.t) : bool :=
  falsy_num (Transaction.redeemed t) && falsy_str (Transaction.processedBy t).

Section Handlers.

(** Outcome of [GET /users/me/transactions?type=redemption&limit=50]:
    the [results] array of the paginated response. *)
Variable myRedemptions : Js.promise (list Transaction.t) AxiosError.
Variable post : Request -> Js.promise unit AxiosError.

Definition listReq : Request :=
  mkRequest GET MyTransactions
    [("type", JStr "redemption"); ("limit", JNum (Some 50))].

Definition fetchPendingRedemption : list Effect :=
  [SetLoadingRedemption true; Call listReq] ++
  match myRedemptions with
  | Js.Resolved results =>
      [SetPendingRedemption (List.find unprocessed results)]
  | Js.Rejected _ => []
  end ++
  [SetLoadingRedemption false].

Definition handleSubmit (user : option User.t) (formData : FormData)
  : list Effect :=
  let amount := Js.parseInt (f_amount formData) in
  [SetLoading true; SetMessage None] ++
  if Js.le amount (Some 0) then
    [SetMessage (Some (mkMessage error "Amount must be greater than 0"));
     SetLoading false]
  else if Js.gt amount (Some (default 0 (User.points <$> user))) then
    [SetMessage (Some (mkMessage error "Insufficient points"));
     SetLoading false]
  else
    let req := mkRequest POST MyTransactions
                 [("type", JStr "redemption"); ("amount", JNum amount);
                  ("remark", JStr (f_remark formData))] in
    match post req with
    | Js.Resolved _ =>
        [Call req;
         SetMessage (Some (mkMessage success
           "Redemption request created! Show the QR code below to a cashier."));
         ResetForm] ++ fetchPendingRedemption ++ [SetLoading false]
    | Js.Rejected e =>
        [Call req;
         SetMessage (Some (mkMessage error
           (or_str (data_error e)
              (or_str (Some (message e))
                 "Failed to create redemption request"))));
         SetLoading false]
    end.

End Handlers.

(** The request form is rendered only for a verified user with no pending
    redemption in the component state. *)
Definition formShown (user : option User.t)
  (pendingRedemption : option Transaction.t) : bool :=
  match user with
  | None => false
  | Some u =>
      User.verified u
      && match pendingRedemption with Some _ => false | None => true end
  end.

End RedeemPage.

(* ================================================================== *)
(** ** Cashier redemption page: [handleProcess] *)
(* ================================================================== *)

Module CashierRedemptionPage.

Section Handlers.

Variable patch : Request -> Js.promise Transaction.t AxiosError.

Definition handleProcess (transactionId : string) : list Effect :=
  if String.eqb transactionId "" then
    [SetMessage (Some (mkMessage error "Please enter a transaction ID"))]
  else
    let req := mkRequest PATCH (TransactionProcessed transactionId)
                 [("processed", JBool true)] in
    [SetLoading true; SetMessage None; Call req] ++
    match patch req with
    | Js.Resolved data =>
        let redeemed :=
          if falsy_num (Transaction.redeemed data)
          then Z.abs (Transaction.amount data)
          else default 0 (Transaction.redeemed data) in
        [SetMessage (Some (mkMessage success
           ("Redemption processed successfully! " ++ pretty redeemed
            ++ " points redeemed.")));
         ResetForm; RedirectLater "/dashboard/cashier"]
    | Js.Rejected e =>
        if bool_decide (status e = Some 400) then
          [SetMessage (Some (mkMessage error
             (or_str (data_error e) "Invalid redemption transaction")))]
        else if bool_decide (status e = Some 404) then
          [SetMessage (Some (mkMessage error
             "Transaction not found. Please check the ID."))]
        else
          [SetMessage (Some (mkMessage error
             (or_str (data_error e) "Failed to process redemption")))]
    end ++
    [SetLoading false].

End Handlers.

End CashierRedemptionPage.

(* ================================================================== *)
(** ** Organizer event page: [handleAwardPoints] *)
(* ================================================================== *)

Module OrganizerEventPage.

Inductive AwardMode := all | individual.

#[global] Instance AwardMode_eq_dec : EqDecision AwardMode.
Proof. solve_decision. Defined.

Definition totalCost (awardMode : AwardMode) (points : Z)
  (guests : list Guest.t) : Z :=
  match awardMode with
  | all => points * Z.of_nat (length guests)
  | individual => points
  end.

Section Handlers.

Variable post : Request -> Js.promise unit AxiosError.

Definition handleAwardPoints (event : option Event.t) (guests : list Guest.t)
  (awardMode : AwardMode) (selectedUtorid pointsToAward awardRemark : string)
  : list Effect :=
  match event with
  | None => []
  | Some ev =>
      match Js.parseInt pointsToAward with
      | None =>
          [SetMessage (Some (mkMessage error
             "Please enter a valid point amount"))]
      | Some points =>
          if points <=? 0 then
            [SetMessage (Some (mkMessage error
               "Please enter a valid point amount"))]
          else
            let pointsRemaining := default 0 (Event.pointsRemain ev) in
            let cost := totalCost awardMode points guests in
            if cost >? pointsRemaining then
              [SetMessage (Some (mkMessage error
                 ("Insufficient points. Need " ++ pretty cost
                  ++ " but only " ++ pretty pointsRemaining
                  ++ " remaining.")))]
            else if bool_decide (awardMode = individual)
                    && String.eqb selectedUtorid "" then
              [SetMessage (Some (mkMessage error "Please select a guest"))]
            else
              let req := mkRequest POST (EventTransactions (Event.id ev))
                ([("type", JStr "event"); ("amount", JNum (Some points));
                  ("remark", JStr awardRemark)]
                 ++ match awardMode with
                    | individual => [("utorid", JStr selectedUtorid)]
                    | all => []
                    end) in
              [SetActionLoading true; SetMessage None; Call req] ++
              match post req with
              | Js.Resolved _ =>
                  [SetMessage (Some (mkMessage success
                     match awardMode with
                     | all => "Successfully awarded " ++ pretty points
                              ++ " points to all guests!"
                     | individual => "Successfully awarded " ++ pretty points
                              ++ " points to " ++ selectedUtorid ++ "!"
                     end));
                   ResetForm; Refetch]
              | Js.Rejected e =>
                  [SetMessage (Some (mkMessage error
                     (or_str (data_error e) "Failed to award points")))]
              end ++
              [SetActionLoading false]
      end
  end.

End Handlers.

End OrganizerEventPage.

(* ================================================================== *)
(** ** The points ledger behind the REST interface *)
(* ================================================================== *)

Module Ledger.

(** Modelled from the spec: the error taxonomy of the server-side ledger
    (section 7); the server code is not part of the client sources. *)
Inductive Error :=
| ValidationError
| NotFoundError
| ConflictError
| Forbidden
| CapacityError
| Unauthenticated.

Inductive result (A : Type) : Type :=
| Ok (a : A)
| Err (e : Error).
Arguments Ok {A} a.
Arguments Err {A} e.

Definition bind {A B : Type} (m : result A) (k : A -> result B) : result B :=
  match m with
  | Ok a => k a
  | Err e => Err e
  end.

Notation "x <- m ;; k" := (bind m (fun x => k))
  (at level 100, m at next level, right associativity).
Notation "'check' b 'else' e ;; k" :=
  (if (b : bool) then k else Err e)
  (at level 100, b at level 99, e at level 0, right associativity).

Definition from_opt {A : Type} (e : Error) (o : option A) : result A :=
  match o with
  | Some a => Ok a
  | None => Err e
  end.

(** Modelled from the spec: the Account entity of section 3, keyed by its
    unique utorid in the directory. *)
Module Account.
Record t := mk {
  name : string;
  email : string;
  role : UserRole;
  points : Z;
  verified : bool;
  suspicious : bool
}.
Definition credit (d : Z) (a : t) : t :=
  mk (name a) (email a) (role a) (points a + d) (verified a) (suspicious a).
Definition set_verified (a : t) : t :=
  mk (name a) (email a) (role a) (points a) true (suspicious a).
Definition set_role (r : UserRole) (a : t) : t :=
  mk (name a) (email a) r (points a) (verified a) (suspicious a).
Definition set_suspicious (b : bool) (a : t) : t :=
  mk (name a) (email a) (role a) (points a) (verified a) b.
End Account.

(** Modelled from the spec: the Transaction entity of section 3.  A
    transaction's id is its position in the append-only log. *)
Module Entry.
Record t := mk {
  owner : string;
  type : TransactionType;
  amount : Z;
  spent : option Q;
  relatedId : option nat;
  promotionIds : list nat;
  suspicious : bool;
  remark : string;
  createdBy : string;
  processedBy : option string;
  redeemed : option Z
}.
(** (b) a purchase's suspicious flag goes from true to false. *)
Definition approve (e : t) : t :=
  mk (owner e) (type e) (amount e) (spent e) (relatedId e) (promotionIds e)
     false (remark e) (createdBy e) (processedBy e) (redeemed e).
(** (a) a redemption goes from pending to processed. *)
Definition process (by_ : string) (e : t) : t :=
  mk (owner e) (type e) (amount e) (spent e) (relatedId e) (promotionIds e)
     (suspicious e) (remark e) (createdBy e) (Some by_) (Some (- amount e)).
End Entry.

(** Modelled from the spec: the Promotion entity of section 3. *)
Module Promo.
Record t := mk {
  type : PromotionType;
  startTime : option Z;
  endTime : Z;
  minSpending : option Q;
  rate : option Q;
  points : option Z
}.
End Promo.

(** Modelled from the spec: the Event entity of section 3. *)
Module Evt.
Record t := mk {
  endTime : Z;
  capacity : option nat;
  pointsTotal : Z;
  pointsRemain : Z;
  published : bool;
  organizers : gset string;
  guests : gset string
}.
Definition draw (cost : Z) (e : t) : t :=
  mk (endTime e) (capacity e) (pointsTotal e) (pointsRemain e - cost)
     (published e) (organizers e) (guests e).
Definition set_guests (g : gset string) (e : t) : t :=
  mk (endTime e) (capacity e) (pointsTotal e) (pointsRemain e)
     (published e) (organizers e) g.
End Evt.

Record State := mkState {
  accounts : gmap string Account.t;
  entries : list Entry.t;
  events : gmap nat Evt.t;
  promotions : gmap nat Promo.t
}.

Definition with_accounts (f : gmap string Account.t -> gmap string Account.t)
  (s : State) : State :=
  mkState (f (accounts s)) (entries s) (events s) (promotions s).
Definition with_entries (f : list Entry.t -> list Entry.t) (s : State)
  : State :=
  mkState (accounts s) (f (entries s)) (events s) (promotions s).
Definition with_events (f : gmap nat Evt.t -> gmap nat Evt.t) (s : State)
  : State :=
  mkState (accounts s) (entries s) (f (events s)) (promotions s).

(** Modelled from the spec: role hierarchy of section 4.2,
    [regular < cashier < manager < superuser]. *)
Definition rank (r : UserRole) : nat :=
  match r with
  | regular => 0
  | cashier => 1
  | manager => 2
  | superuser => 3
  end.

Definition atLeast (min r : UserRole) : bool := (rank min <=? rank r)%nat.

(** The account a bearer credential resolves to. *)
Definition actorAccount (s : State) (actor : string) : result Account.t :=
  from_opt Unauthenticated (accounts s !! actor).

Definition requireRole (min : UserRole) (s : State) (actor : string)
  : result Account.t :=
  a <- actorAccount s actor ;;
  check atLeast min (Account.role a) else Forbidden ;;
  Ok a.

(** The live counter of an account ([0] for an id not in the directory). *)
Definition balance (s : State) (u : string) : Z :=
  from_option Account.points 0 (accounts s !! u).

Definition credit (u : string) (d : Z) (s : State) : State :=
  with_accounts (alter (Account.credit d) u) s.

Definition append (e : Entry.t) (s : State) : State :=
  with_entries (fun l => (l ++ [e])%list) s.

(** Modelled from the spec: a transaction's effect is currently applied
    unless it is a suspicious (unapproved) purchase or an unprocessed
    redemption (sections 3 and 8). *)
Definition applied (e : Entry.t) : bool :=
  match Entry.type e with
  | purchase => negb (Entry.suspicious e)
  | redemption => bool_decide (is_Some (Entry.processedBy e))
  | _ => true
  end.

Definition contribution (u : string) (e : Entry.t) : Z :=
  if bool_decide (Entry.owner e = u) && applied e then Entry.amount e else 0.

(** Sum of the amounts of the applied transactions touching [u]. *)
Definition appliedSum (u : string) (l : list Entry.t) : Z :=
  foldr (fun e acc => contribution u e + acc) 0 l.

Definition pending (u : string) (e : Entry.t) : bool :=
  bool_decide (Entry.owner e = u)
  && bool_decide (Entry.type e = redemption)
  && bool_decide (Entry.processedBy e = None).

Definition hasPending (s : State) (u : string) : bool :=
  existsb (pending u) (entries s).

Definition pendingCount (u : string) (l : list Entry.t) : nat :=
  length (List.filter (pending u) l).

(** Modelled from the spec: active window check of section 4.3,
    [startTime ≤ T ≤ endTime], or [T ≤ endTime] without a start. *)
Definition active (T : Z) (p : Promo.t) : bool :=
  match Promo.startTime p with
  | Some st => (st <=? T) && (T <=? Promo.endTime p)
  | None => T <=? Promo.endTime p
  end.

Definition meetsMin (spent : Q) (p : Promo.t) : bool :=
  match Promo.minSpending p with
  | Some m => Qle_bool m spent
  | None => true
  end.

(** A one-time promotion is used by an account iff a past transaction of
    that account lists its id. *)
Definition used (s : State) (owner : string) (pid : nat) : bool :=
  existsb (fun e => bool_decide (Entry.owner e = owner)
                    && bool_decide (pid ∈ Entry.promotionIds e))
          (entries s).

Definition basePoints (spent : Q) : Z := Qfloor (spent / (1 # 4)).

Definition oneTimeBonus (s : State) (T : Z) (owner : string) (spent : Q)
  (pid : nat) : result Z :=
  p <- from_opt ValidationError (promotions s !! pid) ;;
  check (match Promo.type p with one_time => true | automatic => false end)
    else ValidationError ;;
  check active T p else ValidationError ;;
  check meetsMin spent p else ValidationError ;;
  check negb (used s owner pid) else ValidationError ;;
  Ok (default 0 (Promo.points p)).

Fixpoint oneTimeBonuses (s : State) (T : Z) (owner : string) (spent : Q)
  (pids : list nat) : result Z :=
  match pids with
  | [] => Ok 0
  | pid :: rest =>
      b <- oneTimeBonus s T owner spent pid ;;
      bs <- oneTimeBonuses s T owner spent rest ;;
      Ok (b + bs)
  end.

Definition automaticBonus (T : Z) (spent : Q) (p : Promo.t) : Z :=
  match Promo.type p with
  | automatic =>
      if active T p && meetsMin spent p then
        Qfloor (inject_Z (basePoints spent) * default 0%Q (Promo.rate p))
      else 0
  | one_time => 0
  end.

Definition automaticBonuses (s : State) (T : Z) (spent : Q) : Z :=
  foldr (fun kp acc => automaticBonus T spent kp.2 + acc) 0
        (map_to_list (promotions s)).

(** Modelled from the spec: [createPurchase] of section 4.1.  The dollar
    amount is an exact rational; [promotionIds] keeps the ids the cashier
    named. *)
Definition createPurchase (s : State) (T : Z) (actor owner : string)
  (spent : Q) (promotionIds : list nat) (remark : string) : result State :=
  _ <- requireRole cashier s actor ;;
  o <- from_opt NotFoundError (accounts s !! owner) ;;
  check negb (Qle_bool spent 0) else ValidationError ;;
  bonus <- oneTimeBonuses s T owner spent promotionIds ;;
  let amount := basePoints spent + bonus + automaticBonuses s T spent in
  let e := Entry.mk owner purchase amount (Some spent) None promotionIds
             (Account.suspicious o) remark actor None None in
  if Account.suspicious o then Ok (append e s)
  else Ok (append e (credit owner amount s)).

(** Modelled from the spec: [approveSuspicious] of section 4.1.  Only a
    purchase in the Suspicious state can be approved; anything else is a
    state-machine violation. *)
Definition approveSuspicious (s : State) (actor : string) (transactionId : nat)
  : result State :=
  _ <- requireRole manager s actor ;;
  e <- from_opt NotFoundError (entries s !! transactionId) ;;
  check bool_decide (Entry.type e = purchase) && Entry.suspicious e
    else ConflictError ;;
  _ <- from_opt NotFoundError (accounts s !! Entry.owner e) ;;
  Ok (with_entries (fun l => <[transactionId := Entry.approve e]> l)
        (credit (Entry.owner e) (Entry.amount e) s)).

(** Modelled from the spec: [createAdjustment] of section 4.1.  A
    [relatedId] has to name a transaction of the log. *)
Definition createAdjustment (s : State) (actor owner : string) (amount : Z)
  (remark : string) (relatedId : option nat) : result State :=
  _ <- requireRole manager s actor ;;
  o <- from_opt NotFoundError (accounts s !! owner) ;;
  check negb (amount =? 0) && negb (String.eqb remark "")
    else ValidationError ;;
  check 0 <=? Account.points o + amount else ValidationError ;;
  check (match relatedId with
         | Some i => bool_decide (is_Some (entries s !! i))
         | None => true
         end) else NotFoundError ;;
  Ok (append (Entry.mk owner adjustment amount None relatedId [] false
                remark actor None None)
        (credit owner amount s)).

(** Modelled from the spec: [createTransfer] of section 4.1.  The debit and
    the credit carry the same [relatedId], the id of the debit; a
    recipient that is not in the directory is a [NotFoundError]. *)
Definition createTransfer (s : State) (actor recipientUtorid : string)
  (amount : Z) (remark : string) : result State :=
  sender <- actorAccount s actor ;;
  check Account.verified sender
        && (0 <? amount)
        && (amount <=? Account.points sender)
        && negb (String.eqb recipientUtorid actor)
    else ValidationError ;;
  _ <- from_opt NotFoundError (accounts s !! recipientUtorid) ;;
  let rid := Some (length (entries s)) in
  let debit := Entry.mk actor transfer (- amount) None rid [] false remark
                 actor None None in
  let credit_ := Entry.mk recipientUtorid transfer amount None rid [] false
                   remark actor None None in
  Ok (append credit_
        (append debit
           (credit recipientUtorid amount (credit actor (- amount) s)))).

(** Modelled from the spec: [requestRedemption] of section 4.1.  The
    single-pending-redemption rule is a standing invariant of the state
    machine and is checked before the request itself is validated.  The
    pending transaction records the negated amount; the balance is left
    alone. *)
Definition requestRedemption (s : State) (actor : string) (amount : Z)
  (remark : string) : result State :=
  owner <- actorAccount s actor ;;
  check negb (hasPending s actor) else ConflictError ;;
  check Account.verified owner
        && (0 <? amount)
        && (amount <=? Account.points owner)
    else ValidationError ;;
  Ok (append (Entry.mk actor redemption (- amount) None None [] false remark
                actor None None) s).

(** Modelled from the spec: [processRedemption] of section 4.1.  An id
    that names a transaction of another type is invalid input. *)
Definition processRedemption (s : State) (actor : string) (transactionId : nat)
  : result State :=
  _ <- requireRole cashier s actor ;;
  e <- from_opt NotFoundError (entries s !! transactionId) ;;
  check bool_decide (Entry.type e = redemption) else ValidationError ;;
  check bool_decide (Entry.processedBy e = None) else ConflictError ;;
  _ <- from_opt NotFoundError (accounts s !! Entry.owner e) ;;
  Ok (with_entries (fun l => <[transactionId := Entry.process actor e]> l)
        (credit (Entry.owner e) (Entry.amount e) s)).

Definition recipients (ev : Evt.t) (target : option string) : list string :=
  match target with
  | Some u => [u]
  | None => elements (Evt.guests ev)
  end.

(** Total cost = amount × (1 if targeted else guestCount). *)
Definition awardCost (ev : Evt.t) (amount : Z) (target : option string) : Z :=
  amount * match target with
           | Some _ => 1
           | None => Z.of_nat (size (Evt.guests ev))
           end.

(** Credits the recipients one after the other; an unresolvable recipient
    makes the whole batch fail, and no intermediate state escapes. *)
Fixpoint creditAll (actor remark : string) (amount : Z) (us : list string)
  (s : State) : result State :=
  match us with
  | [] => Ok s
  | u :: rest =>
      _ <- from_opt NotFoundError (accounts s !! u) ;;
      creditAll actor remark amount rest
        (append (Entry.mk u event amount None None [] false remark actor
                   None None)
           (credit u amount s))
  end.

(** Modelled from the spec: [awardEventPoints] of section 4.1.  A named
    target has to be on the guest list of the event. *)
Definition awardEventPoints (s : State) (actor : string) (eventId : nat)
  (amount : Z) (target : option string) (remark : string) : result State :=
  a <- actorAccount s actor ;;
  ev <- from_opt NotFoundError (events s !! eventId) ;;
  check bool_decide (actor ∈ Evt.organizers ev)
        || atLeast manager (Account.role a)
    else Forbidden ;;
  check 0 <? amount else ValidationError ;;
  let cost := awardCost ev amount target in
  check cost <=? Evt.pointsRemain ev else ValidationError ;;
  check (match target with
         | Some u => bool_decide (u ∈ Evt.guests ev)
         | None => true
         end) else ValidationError ;;
  s' <- creditAll actor remark amount (recipients ev target) s ;;
  Ok (with_events (fun m => <[eventId := Evt.draw cost ev]> m) s').

Definition alnum (a : ascii) : bool :=
  let n := Z.of_nat (nat_of_ascii a) in
  ((48 <=? n) && (n <=? 57)) || ((65 <=? n) && (n <=? 90))
  || ((97 <=? n) && (n <=? 122)).

Definition validUtorid (u : string) : bool :=
  (7 <=? String.length u)%nat && (String.length u <=? 8)%nat
  && forallb alnum (list_ascii_of_string u).

(** Modelled from the spec: registration (sections 3 and 4.2): a new
    account starts as [regular], with no points, unverified.  The check of
    the email against the institutional domain is left out: the domain is
    not given. *)
Definition register (s : State) (actor utorid name email : string)
  : result State :=
  _ <- requireRole cashier s actor ;;
  check validUtorid utorid else ValidationError ;;
  check bool_decide (accounts s !! utorid = None) else ConflictError ;;
  Ok (with_accounts
        (fun m => <[utorid := Account.mk name email regular 0 false false]> m)
        s).

(** Modelled from the spec: verification is one-directional (section 4.2):
    a manager or superuser may set [verified] to true; a request to set it
    to false is a disallowed transition. *)
Definition setVerified (s : State) (actor target : string) (value : bool)
  : result State :=
  _ <- requireRole manager s actor ;;
  _ <- from_opt NotFoundError (accounts s !! target) ;;
  check value else ConflictError ;;
  Ok (with_accounts (alter Account.set_verified target) s).

(** Modelled from the spec (section 4.2): "A manager may re-role only
    between regular and cashier; a superuser may set any role except the
    actor's own current role". *)
Definition mayReRole (actorRole targetRole newRole : UserRole) : bool :=
  match actorRole with
  | superuser => negb (bool_decide (newRole = actorRole))
  | manager =>
      (bool_decide (targetRole = regular) && bool_decide (newRole = cashier))
      || (bool_decide (targetRole = cashier) && bool_decide (newRole = regular))
  | _ => false
  end.

(** Modelled from the spec: role change; no actor may change their own
    role (a [ConflictError], section 7). *)
Definition setRole (s : State) (actor target : string) (newRole : UserRole)
  : result State :=
  a <- requireRole manager s actor ;;
  t <- from_opt NotFoundError (accounts s !! target) ;;
  check negb (String.eqb actor target) else ConflictError ;;
  check mayReRole (Account.role a) (Account.role t) newRole else Forbidden ;;
  Ok (with_accounts (alter (Account.set_role newRole) target) s).

(** Modelled from the spec: the suspicious flag is togglable by cashier+. *)
Definition setSuspicious (s : State) (actor target : string) (value : bool)
  : result State :=
  _ <- requireRole cashier s actor ;;
  _ <- from_opt NotFoundError (accounts s !! target) ;;
  Ok (with_accounts (alter (Account.set_suspicious value) target) s).

(** Modelled from the spec: RSVP of section 4.4. *)
Definition rsvp (s : State) (T : Z) (actor : string) (eventId : nat)
  : result State :=
  _ <- actorAccount s actor ;;
  ev <- from_opt NotFoundError (events s !! eventId) ;;
  check negb (Evt.endTime ev <? T)
        && negb (bool_decide (Evt.capacity ev = Some (size (Evt.guests ev))))
    else CapacityError ;;
  Ok (with_events
        (fun m => <[eventId := Evt.set_guests ({[actor]} ∪ Evt.guests ev) ev]> m)
        s).

(** Modelled from the spec: cancel-RSVP of section 4.4. *)
Definition cancelRsvp (s : State) (T : Z) (actor : string) (eventId : nat)
  : result State :=
  _ <- actorAccount s actor ;;
  ev <- from_opt NotFoundError (events s !! eventId) ;;
  check negb (Evt.endTime ev <? T) else CapacityError ;;
  Ok (with_events
        (fun m => <[eventId := Evt.set_guests (Evt.guests ev ∖ {[actor]}) ev]> m)
        s).

(** The operations of the ledger, the directory and the roster. *)
Inductive Op :=
| CreatePurchase (T : Z) (actor owner : string) (spent : Q)
    (promotionIds : list nat) (remark : string)
| ApproveSuspicious (actor : string) (transactionId : nat)
| CreateAdjustment (actor owner : string) (amount : Z) (remark : string)
    (relatedId : option nat)
| CreateTransfer (actor recipientUtorid : string) (amount : Z)
    (remark : string)
| RequestRedemption (actor : string) (amount : Z) (remark : string)
| ProcessRedemption (actor : string) (transactionId : nat)
| AwardEventPoints (actor : string) (eventId : nat) (amount : Z)
    (target : option string) (remark : string)
| Register (actor utorid name email : string)
| SetVerified (actor target : string) (value : bool)
| SetRole (actor target : string) (newRole : UserRole)
| SetSuspicious (actor target : string) (value : bool)
| Rsvp (T : Z) (actor : string) (eventId : nat)
| CancelRsvp (T : Z) (actor : string) (eventId : nat).

Definition step (s : State) (o : Op) : result State :=
  match o with
  | CreatePurchase T actor owner spent pids remark =>
      createPurchase s T actor owner spent pids remark
  | ApproveSuspicious actor i => approveSuspicious s actor i
  | CreateAdjustment actor owner amount remark rid =>
      createAdjustment s actor owner amount remark rid
  | CreateTransfer actor rcpt amount remark =>
      createTransfer s actor rcpt amount remark
  | RequestRedemption actor amount remark =>
      requestRedemption s actor amount remark
  | ProcessRedemption actor i => processRedemption s actor i
  | AwardEventPoints actor ev amount target remark =>
      awardEventPoints s actor ev amount target remark
  | Register actor utorid name email => register s actor utorid name email
  | SetVerified actor target value => setVerified s actor target value
  | SetRole actor target r => setRole s actor target r
  | SetSuspicious actor target value => setSuspicious s actor target value
  | Rsvp T actor ev => rsvp s T actor ev
  | CancelRsvp T actor ev => cancelRsvp s T actor ev
  end.

(** Every operation fully applies or fully fails: a failed request leaves
    the state as it was. *)
Definition exec (s : State) (o : Op) : State :=
  match step s o with
  | Ok s' => s'
  | Err _ => s
  end.

Definition run (s : State) (ops : list Op) : State := fold_left exec ops s.

(** A starting state: some accounts, promotions and events, no transaction
    yet and every balance at zero. *)
Definition initial (s : State) : Prop :=
  entries s = []
  ∧ map_Forall (fun _ a => Account.points a = 0) (accounts s).

#[global] Instance initial_dec (s : State) : Decision (initial s).
Proof. unfold initial. apply _. Defined.

(** Conservation, for one state. *)
Definition conserved (s : State) : Prop :=
  ∀ u, balance s u = appliedSum u (entries s).

(** At most one pending redemption per account, for one state. *)
Definition singlePending (s : State) : Prop :=
  ∀ u, (pendingCount u (entries s) <= 1)%nat.

Definition verifiedAt (s : State) (u : string) : bool :=
  from_option Account.verified false (accounts s !! u).

End Ledger.

(* ================================================================== *)
(** ** Sample data used by the examples below *)
(* ================================================================== *)

Module Samples.

Definition storage : gmap string string :=
  <["theme" := "dark"]>
    (<["tokenExpiry" := "2030-01-01"]> (<["token" := "abc"]> ∅)).

Definition window : Api.Window := Api.mkWindow storage "/dashboard".

Definition unauthorized : AxiosError :=
  mkAxiosError (Some 401) None "Unauthorized".

(** A decoder that accepts one token, expiring at second 1000. *)
Definition decode (token : string) : option Auth.JwtPayload :=
  if String.eqb token "good" then Some (Auth.mkPayload (Some 1000)) else None.

(** The scenario of the ledger description: a cashier, a manager and two
    verified customers; a 40.00 purchase, a transfer of 100, a redemption
    of 50 that is then processed. *)
Definition person (name : string) (r : UserRole) (verified : bool)
  : Ledger.Account.t :=
  Ledger.Account.mk name (name +:+ "@mail.utoronto.ca") r 0 verified false.

Definition gala : Ledger.Evt.t :=
  Ledger.Evt.mk 5000 None 1000 1000 true {["manager1"]}
    {["alice001"; "bobby002"]}.

Definition ledger0 : Ledger.State :=
  Ledger.mkState
    (<["cashier1" := person "Cass" cashier true]>
       (<["manager1" := person "Max" manager true]>
          (<["alice001" := person "Alice" regular true]>
             (<["bobby002" := person "Bob" regular true]> ∅))))
    [] (<[7%nat := gala]> ∅) ∅.

Definition requested : list Ledger.Op :=
  [Ledger.CreatePurchase 100 "cashier1" "alice001" 40%Q [] "";
   Ledger.CreateTransfer "alice001" "bobby002" 100 "";
   Ledger.RequestRedemption "alice001" 50 ""].

Definition scenario : list Ledger.Op :=
  (requested ++ [Ledger.ProcessRedemption "cashier1" 3])%list.

(** The state in which Alice's redemption of 50 is pending. *)
Definition ledger3 : Ledger.State := Ledger.run ledger0 requested.

(** The event scenario: a budget of 1000 points and ten guests. *)
Definition tenGuests : list string :=
  ["guest000"; "guest001"; "guest002"; "guest003"; "guest004";
   "guest005"; "guest006"; "guest007"; "guest008"; "guest009"].

Definition party : Ledger.Evt.t :=
  Ledger.Evt.mk 5000 None 1000 1000 true {["organiz1"]}
    (list_to_set tenGuests).

Definition ledgerE : Ledger.State :=
  Ledger.mkState
    (<["organiz1" := person "Olga" regular true]>
       (list_to_map ((fun u => (u, person u regular false)) <$> tenGuests)))
    [] (<[3%nat := party]> ∅) ∅.

(** After 50 points went to each of the ten guests. *)
Definition ledgerE1 : Ledger.State :=
  Ledger.exec ledgerE (Ledger.AwardEventPoints "organiz1" 3 50 None "").

(** What the organizer page holds for the same event. *)
Definition partyView : Event.t := Event.mk 3 "Party" (Some 500).

Definition guestViews : list Guest.t :=
  (fun u => Guest.mk 0 u u) <$> tenGuests.

Definition accepted : Request → Js.promise unit AxiosError :=
  fun _ => Js.Resolved tt.

(** Alice as the transfer page sees her in [ledger3]. *)
Definition aliceView : User.t :=
  User.mk 2 "alice001" "Alice" "Alice@mail.utoronto.ca" regular 60 true None.

Definition maxView : User.t :=
  User.mk 1 "manager1" "Max" "Max@mail.utoronto.ca" manager 0 true None.


End Samples.

(* ================================================================== *)
(** ** Where the integer and string models agree with JavaScript *)
(* ================================================================== *)

Module JsNum.

(** [Number.isSafeInteger]: the integers a double holds exactly, so that
    [parseInt], comparison and multiplication behave as on integers. *)
Definition safe (z : Z) : Prop := - 2 ^ 53 < z < 2 ^ 53.

(** [NaN], or a safe integer. *)
Definition safeNum (n : Js.num) : Prop :=
  match n with
  | Some z => safe z
  | None => True
  end.

(** Strings of ASCII characters: on these the white space skipped by
    [Js.parseInt] and stripped by [JsString.trim] is all the white space
    JavaScript knows. *)
Definition isAscii (s : string) : bool :=
  forallb (fun a => (nat_of_ascii a <? 128)%nat) (list_ascii_of_string s).

End JsNum.

(* ================================================================== *)
(** ** [String.prototype.trim] *)
(* ================================================================== *)

Module JsString.

(** Drops trailing (ASCII) white space.  On ASCII strings [trim] below is
    [String.prototype.trim]; JavaScript also strips the white space
    outside ASCII (U+00A0, U+FEFF, U+2028, ...), so what is proved of
    [trim] is stated for ASCII strings. *)
Fixpoint trimEnd (s : string) : string :=
  match s with
  | String a r =>
      match trimEnd r with
      | EmptyString => if Js.is_ws a then EmptyString else String a EmptyString
      | r' => String a r'
      end
  | EmptyString => EmptyString
  end.

Definition trim (s : string) : string := trimEnd (Js.skip_ws s).

End JsString.

(* ================================================================== *)
(** ** [src/lib/api.ts]: request interceptor and form-data helper *)
(* ================================================================== *)

Module ApiClient.

(** The headers every request of the [api] instance starts with. *)
Definition defaultHeaders : gmap string string :=
  <["Content-Type" := "application/json"]> ∅.

(** The request interceptor, on the headers of the request config. *)
Definition onRequest (w : option Api.Window) (headers : gmap string string)
  : gmap string string :=
  match w with
  | Some win =>
      let token := Api.localStorage win !! "token" in
      if falsy_str token then headers
      else <["Authorization" := "Bearer " +:+ default "" token]> headers
  | None => headers
  end.

(** The headers [apiFormData.patch] and [apiFormData.post] hand to axios. *)
Definition formDataHeaders (w : option Api.Window) : gmap string string :=
  let token :=
    match w with
    | Some win => Api.localStorage win !! "token"
    | None => None
    end in
  if falsy_str token then ∅
  else <["Authorization" := "Bearer " +:+ default "" token]> ∅.

End ApiClient.

(* ================================================================== *)
(** ** [AuthContext.tsx]: login, logout and the state they share *)
(* ================================================================== *)

Module AuthSession.

(** What the provider and its callers observe: localStorage, the [user]
    and [loading] state, and the last route pushed. *)
Record t := mk {
  storage : gmap string string;
  user : option User.t;
  loading : bool;
  route : option string
}.

(** The effect of one step of [fetchUser] on that state. *)
Definition apply (s : t) (e : Effect) : t :=
  match e with
  | SetLoading b => mk (storage s) (user s) b (route s)
  | SetUser u => mk (storage s) (Some u) (loading s) (route s)
  | RemoveItem k => mk (delete k (storage s)) (user s) (loading s) (route s)
  | _ => s
  end.

Definition settle (es : list Effect) (s : t) : t := fold_left apply es s.

Definition logout (s : t) : t :=
  mk (delete "tokenExpiry" (delete "token" (storage s))) None (loading s)
     (Some "/login").

Record AuthResponse := mkAuth { token : string; expiresAt : string }.

Section Login.

(** Outcome of [POST /auth/tokens] for the credentials typed in. *)
Variable postTokens : string -> string -> Js.promise AuthResponse AxiosError.
(** Outcome of [GET /users/me]. *)
Variable getMe : Js.promise User.t AxiosError.

Definition loginError (e : AxiosError) : string :=
  or_str (data_error e) "Login failed".

(** [login]: the state it leaves and the promise it returns; a rejection
    carries the message of the [Error] thrown.  This is [login] as the
    login page at /login runs it, where the response interceptor leaves a
    rejected request alone. *)
Definition login (utorid password : string) (s : t)
  : t * Js.promise unit string :=
  match postTokens utorid password with
  | Js.Rejected e => (s, Js.Rejected (loginError e))
  | Js.Resolved data =>
      let stored :=
        <["tokenExpiry" := expiresAt data]>
          (<["token" := token data]> (storage s)) in
      match getMe with
      | Js.Rejected e =>
          (mk stored (user s) (loading s) (route s),
           Js.Rejected (loginError e))
      | Js.Resolved u =>
          (mk stored (Some u) (loading s) (Some "/dashboard"),
           Js.Resolved tt)
      end
  end.

End Login.

End AuthSession.

(* ================================================================== *)
(** ** Home page and dashboard layout *)
(* ================================================================== *)

Module HomePage.

(** The route the effect pushes, if any. *)
Definition redirect (user : option User.t) (loading : bool) : option string :=
  if negb loading then
    match user with
    | Some _ => Some "/dashboard"
    | None => Some "/login"
    end
  else None.

End HomePage.

Module DashboardLayout.

Definition redirect (user : option User.t) (loading : bool) : option string :=
  if negb loading && match user with Some _ => false | None => true end
  then Some "/login" else None.

(** What the layout returns: the spinner, nothing, or the navigation bar
    (with or without the Cashier and Manager links) around the page. *)
Inductive Layout :=
| Spinner
| Nothing
| Shell (cashierLink managerLink : bool).

Definition cashierLink (u : User.t) : bool :=
  bool_decide (User.role u = cashier) || bool_decide (User.role u = manager)
  || bool_decide (User.role u = superuser).

Definition managerLink (u : User.t) : bool :=
  bool_decide (User.role u = manager) || bool_decide (User.role u = superuser).

Definition render (user : option User.t) (loading : bool) : Layout :=
  if loading then Spinner
  else match user with
       | None => Nothing
       | Some u => Shell (cashierLink u) (managerLink u)
       end.

End DashboardLayout.

(* ================================================================== *)
(** ** The role checks at the top of the staff pages *)
(* ================================================================== *)

Inductive Access := NoUser | AccessDenied | Granted.

Module PageGuard.

(** [CashierRedemptionPage]. *)
Definition cashierRedemption (user : option User.t) : Access :=
  match user with
  | None => NoUser
  | Some u =>
      if negb (bool_decide (User.role u = cashier))
         && negb (bool_decide (User.role u = manager))
         && negb (bool_decide (User.role u = superuser))
      then AccessDenied else Granted
  end.

(** [TransactionDetailPage]. *)
Definition transactionDetail (user : option User.t) : Access :=
  match user with
  | None => NoUser
  | Some u =>
      if negb (bool_decide (User.role u = manager))
         && negb (bool_decide (User.role u = superuser))
      then AccessDenied else Granted
  end.

(** [ManagerUserDetailPage], on [currentUser]. *)
Definition managerUserDetail (currentUser : option User.t) : Access :=
  match currentUser with
  | None => NoUser
  | Some u =>
      if negb (bool_decide (User.role u = manager))
         && negb (bool_decide (User.role u = superuser))
      then AccessDenied else Granted
  end.

(** [ManagerPromotionsPage]. *)
Definition managerPromotions (user : option User.t) : Access :=
  match user with
  | None => NoUser
  | Some u =>
      if negb (bool_decide (User.role u = manager))
         && negb (bool_decide (User.role u = superuser))
      then AccessDenied else Granted
  end.

End PageGuard.

(* ================================================================== *)
(** ** Manager user detail page: the role buttons *)
(* ================================================================== *)

Module UserActions.

(** The four conditional buttons of the "Change User Role" card, in the
    order of the markup, as the roles they set. *)
Definition roleButtons (user currentUser : User.t) : list string :=
  List.filter
    (ManagerUserDetailPage.canPromoteTo (Some user) (Some currentUser))
    ["regular"; "cashier"; "manager"; "superuser"].

(** The paragraph shown in place of the buttons. *)
Definition roleHint (user currentUser : User.t) : option string :=
  let can := ManagerUserDetailPage.canPromoteTo (Some user) (Some currentUser) in
  if negb (can "regular") && negb (can "cashier") && negb (can "manager")
     && negb (can "superuser")
  then Some (if User.id user =? User.id currentUser
             then "You cannot change your own role."
             else if bool_decide (User.role currentUser = manager)
             then "You can only manage regular and cashier roles."
             else "No role change options available for this user.")
  else None.

End UserActions.

(* ================================================================== *)
(** ** Transaction detail page: approval and adjustment *)
(* ================================================================== *)

(** A request with its URL spelled out. *)
Record Fetch := mkFetch {
  f_method : Method;
  url : string;
  payload : list (string * Json)
}.

Inductive PageEffect :=
| PActionLoading (b : bool)
| PMessage (m : option Message)
| PCall (r : Fetch)
| PResetAdjustment
| PRefetch.

Module TransactionDetailPage.

Section Handlers.

Variable send : Fetch -> Js.promise unit AxiosError.
(** [window.confirm] as answered by the manager. *)
Variable confirm : string -> bool.

Definition approveRequest (transaction : Transaction.t) : Fetch :=
  mkFetch PATCH
    ("/transactions/" +:+ pretty (Transaction.id transaction) +:+ "/suspicious")
    [("suspicious", JBool false)].

Definition handleApproveSuspicious (transaction : option Transaction.t)
  : list PageEffect :=
  match transaction with
  | None => []
  | Some t =>
      if negb (confirm "Are you sure you want to approve this suspicious transaction? This will award the points to the user.")
      then []
      else
        [PActionLoading true; PMessage None; PCall (approveRequest t)] ++
        match send (approveRequest t) with
        | Js.Resolved _ =>
            [PMessage (Some (mkMessage success
               ("Transaction approved! " +:+ pretty (Transaction.amount t)
                +:+ " points awarded to "
                +:+ default "undefined" (Transaction.utorid t) +:+ ".")));
             PRefetch]
        | Js.Rejected e =>
            [PMessage (Some (mkMessage error
               (or_str (data_error e) "Failed to approve transaction")))]
        end ++
        [PActionLoading false]
  end.

(** The body of the adjustment request; an undefined [utorid] is left out
    of the JSON. *)
Definition adjustmentRequest (transaction : Transaction.t) (amount : Z)
  (remark : string) : Fetch :=
  mkFetch POST "/transactions"
    ([("type", JStr "adjustment")]
     ++ match Transaction.utorid transaction with
        | Some u => [("utorid", JStr u)]
        | None => []
        end
     ++ [("amount", JNum (Some amount));
         ("remark", JStr (JsString.trim remark));
         ("relatedId", JNum (Some (Transaction.id transaction)))]).

Definition handleCreateAdjustment (transaction : option Transaction.t)
  (adjustmentAmount adjustmentRemark : string) : list PageEffect :=
  match transaction with
  | None => []
  | Some t =>
      match Js.parseInt adjustmentAmount with
      | None =>
          [PMessage (Some (mkMessage error
             "Please enter a valid non-zero amount"))]
      | Some amount =>
          if amount =? 0 then
            [PMessage (Some (mkMessage error
               "Please enter a valid non-zero amount"))]
          else if String.eqb (JsString.trim adjustmentRemark) "" then
            [PMessage (Some (mkMessage error
               "Please provide a remark explaining the adjustment"))]
          else
            let req := adjustmentRequest t amount adjustmentRemark in
            [PActionLoading true; PMessage None; PCall req] ++
            match send req with
            | Js.Resolved _ =>
                [PMessage (Some (mkMessage success
                   ("Adjustment created successfully! "
                    +:+ (if 0 <? amount then "Added" else "Deducted")
                    +:+ " " +:+ pretty (Z.abs amount) +:+ " points.")));
                 PResetAdjustment; PRefetch]
            | Js.Rejected e =>
                [PMessage (Some (mkMessage error
                   (or_str (data_error e) "Failed to create adjustment")))]
            end ++
            [PActionLoading false]
      end
  end.

End Handlers.

(** The approve button is rendered for a suspicious transaction, the
    adjustment card for every type but [adjustment]. *)
Definition approveShown (t : Transaction.t) : bool :=
  default false (Transaction.suspicious t).

Definition adjustmentShown (t : Transaction.t) : bool :=
  negb (bool_decide (Transaction.type t = adjustment)).

End TransactionDetailPage.

(* ================================================================== *)
(** ** Manager promotions page: pagination *)
(* ================================================================== *)

Module ManagerPromotionsPage.

Definition limit : Z := 20.

(** [Math.ceil(totalCount / limit)], on integers. *)
Definition totalPages (totalCount : Z) : Z := - ((- totalCount) / limit).

(** The pagination controls are rendered when there is more than one
    page. *)
Definition controlsShown (totalCount : Z) : bool := totalPages totalCount >? 1.

(** "Showing [showingFrom] to [showingTo] of [totalCount] results". *)
Definition showingFrom (currentPage : Z) : Z := (currentPage - 1) * limit + 1.
Definition showingTo (currentPage totalCount : Z) : Z :=
  Z.min (currentPage * limit) totalCount.

Definition previous (currentPage : Z) : Z := Z.max 1 (currentPage - 1).
Definition next (currentPage totalCount : Z) : Z :=
  Z.min (totalPages totalCount) (currentPage + 1).

Definition previousDisabled (currentPage : Z) : bool := currentPage =? 1.
Definition nextDisabled (currentPage totalCount : Z) : bool :=
  currentPage =? totalPages totalCount.

End ManagerPromotionsPage.

(* ================================================================== *)
(** ** Organizer event page: status badge and award form *)
(* ================================================================== *)

Module OrganizerEventView.

(** [getEventStatus], on the event's [startTime] and [endTime] as
    [new Date] reads them. *)
Definition getEventStatus (now : Z) (start end_ : Js.date)
  : PromotionPage.Status :=
  if Js.lt (Some now) start then
    PromotionPage.mkStatus "Upcoming" "bg-blue-100 text-blue-800"
  else if Js.le start (Some now) && Js.le (Some now) end_ then
    PromotionPage.mkStatus "Ongoing" "bg-green-100 text-green-800"
  else PromotionPage.mkStatus "Past" "bg-gray-100 text-gray-800".

Definition pointsRemaining (ev : Event.t) : Z :=
  default 0 (Event.pointsRemain ev).

(** The "Award Points" card is rendered when points remain and the event
    has guests. *)
Definition awardCardShown (ev : Event.t) (guests : list Guest.t) : bool :=
  (pointsRemaining ev >? 0) && (Z.of_nat (length guests) >? 0).

(** The [max] attribute of the points input ([min] is 1). *)
Definition inputMax (awardMode : OrganizerEventPage.AwardMode) (ev : Event.t)
  (guests : list Guest.t) : Z :=
  match awardMode with
  | OrganizerEventPage.all => pointsRemaining ev / Z.of_nat (length guests)
  | OrganizerEventPage.individual => pointsRemaining ev
  end.

End OrganizerEventView.

(* ================================================================== *)
(** ** Manager user detail page: loading the user *)
(* ================================================================== *)

Module UserDetailLoad.

Definition with_suspicious (b : bool) (u : User.t) : User.t :=
  User.mk (User.id u) (User.utorid u) (User.name u) (User.email u)
    (User.role u) (User.points u) (User.verified u) (Some b).

(** [fetchUser] of the page: the user it stores with [setUser], or the
    text it stores with [setError].  The suspicious flag comes from a
    second request; when that one fails the flag is set to false. *)
Definition fetchUser (getUser : Js.promise User.t AxiosError)
  (getSuspicious : Js.promise bool AxiosError) : User.t + string :=
  match getUser with
  | Js.Resolved userData =>
      match getSuspicious with
      | Js.Resolved flag => inl (with_suspicious flag userData)
      | Js.Rejected _ => inl (with_suspicious false userData)
      end
  | Js.Rejected err =>
      if bool_decide (status err = Some 404) then inr "User not found"
      else inr (or_str (data_error err) "Failed to fetch user")
  end.

End UserDetailLoad.

(* ================================================================== *)
(** ** More sample data *)
(* ================================================================== *)

Module MoreSamples.

Definition session : AuthSession.t :=
  AuthSession.mk Samples.storage (Some Samples.aliceView) false None.

Definition purchaseView : Transaction.t :=
  Transaction.mk 41 (Some "alice001") purchase 160 None None [] (Some true)
    "" "cashier1" None.

Definition cassView : User.t :=
  User.mk 3 "cashier1" "Cass" "Cass@mail.utoronto.ca" cashier 0 true None.

Definition rootView : User.t :=
  User.mk 9 "superusr" "Root" "Root@mail.utoronto.ca" superuser 0 true None.

Definition sent : Fetch → Js.promise unit AxiosError :=
  fun _ => Js.Resolved tt.

Definition bobLookup : string → Js.promise TransferPage.UserLookup AxiosError :=
  fun u => Js.Resolved (TransferPage.mkLookup 5 u "Bob" true).

End MoreSamples.

(* ================================================================== *)
(** * Properties of the client pages *)
(* ================================================================== *)

Section ClientFacts.

Import ManagerUserDetailPage.

Example parseInt_decimal : Js.parseInt "  42 points" = Some 42.
Proof. reflexivity. Qed.

Example parseInt_negative : Js.parseInt "-7.5" = Some (-7).
Proof. reflexivity. Qed.

Example parseInt_hex : Js.parseInt "0x1A" = Some 26.
Proof. reflexivity. Qed.

Example parseInt_empty : Js.parseInt "" = None.
Proof. reflexivity. Qed.

Example parseInt_letters : Js.parseInt "abc" = None.
Proof. reflexivity. Qed.

(** A manager may move a regular user to cashier, not to manager; nobody
    changes their own role. *)
Example canPromoteTo_samples :
  canPromoteTo (Some Samples.aliceView) (Some Samples.maxView) "cashier" = true
  ∧ canPromoteTo (Some Samples.aliceView) (Some Samples.maxView) "manager"
    = false
  ∧ canPromoteTo (Some Samples.maxView) (Some Samples.maxView) "cashier"
    = false.
Proof. repeat split. Qed.

Lemma role_name_inj (a b : UserRole) : role_name a = role_name b → a = b.
Proof. by destruct a, b. Qed.

Lemma string_eqb_true (a b : string) : String.eqb a b = true ↔ a = b.
Proof. apply String.eqb_eq. Qed.

Lemma string_eqb_false (a b : string) : String.eqb a b = false ↔ a ≠ b.
Proof. apply String.eqb_neq. Qed.

(** C5: [canPromoteTo] allows a role change exactly when the target is
    loaded, is not the acting user, and either the acting user is a
    superuser and the new role differs from the target's current role, or
    the acting user is a manager and the change is regular to cashier or
    cashier to regular.  Everything else is denied. *)
Theorem canPromoteTo_spec (user currentUser : option User.t) (role : string) :
  canPromoteTo user currentUser role = true ↔
  ∃ u cu, user = Some u ∧ currentUser = Some cu ∧
    User.id u ≠ User.id cu ∧
    ((User.role cu = superuser ∧ role ≠ role_name (User.role u))
     ∨ (User.role cu = manager
        ∧ ((User.role u = regular ∧ role = "cashier")
           ∨ (User.role u = cashier ∧ role = "regular")))).
Proof.
  unfold canPromoteTo. split.
  - destruct user as [u|], currentUser as [cu|]; try discriminate.
    destruct (Z.eqb_spec (User.id u) (User.id cu)) as [|Hid]; [discriminate|].
    intros H. exists u, cu. repeat split; [done|].
    destruct (User.role cu) eqn:Hcu; simpl in H; try discriminate.
    + right. split; [done|].
      destruct (User.role u); simpl in H; try discriminate;
        rewrite ?orb_false_r in H; apply string_eqb_true in H; auto.
    + left. split; [done|].
      apply negb_true_iff, string_eqb_false in H. done.
  - intros (u & cu & -> & -> & Hid & H).
    destruct (Z.eqb_spec (User.id u) (User.id cu)) as [|_]; [done|].
    destruct H as [[Hs Hr] | [Hm H]].
    + rewrite Hs. simpl. apply negb_true_iff, string_eqb_false. done.
    + rewrite Hm. simpl. destruct H as [[-> ->] | [-> ->]]; reflexivity.
Qed.

(** C9: in the browser, a rejected response with status 401 received on a
    path other than /login removes [token] and [tokenExpiry] from
    localStorage (other keys stay) and moves to /login; on /login itself
    storage and location stay as they are; and whatever the status or the
    environment, the promise is rejected with the original error. *)
Theorem interceptor_401 (w : option Api.Window) (e : AxiosError) :
  (Api.onRejected w e).2 = Js.Rejected e
  ∧ ∀ win, w = Some win → status e = Some 401 →
    (Api.pathname win ≠ "/login" →
       ∃ win', (Api.onRejected w e).1 = Some win'
         ∧ Api.localStorage win' !! "token" = None
         ∧ Api.localStorage win' !! "tokenExpiry" = None
         ∧ (∀ k, k ≠ "token" → k ≠ "tokenExpiry" →
              Api.localStorage win' !! k = Api.localStorage win !! k)
         ∧ Api.pathname win' = "/login")
    ∧ (Api.pathname win = "/login" → (Api.onRejected w e).1 = Some win).
Proof.
  split; [reflexivity|].
  intros win -> H401. unfold Api.onRejected. simpl.
  rewrite bool_decide_eq_true_2 by done.
  split; intros Hp.
  - apply string_eqb_false in Hp. rewrite Hp. simpl.
    eexists. split; [reflexivity|]. simpl.
    repeat split.
    + rewrite lookup_delete_ne by done. apply lookup_delete_eq.
    + apply lookup_delete_eq.
    + intros k Hk1 Hk2. by rewrite !lookup_delete_ne.
  - rewrite Hp. reflexivity.
Qed.

Lemma interceptor_401_witness :
  ∃ win',
    (Api.onRejected (Some Samples.window) Samples.unauthorized).1 = Some win'
    ∧ Api.localStorage win' !! "token" = None
    ∧ Api.localStorage win' !! "tokenExpiry" = None
    ∧ (∀ k, k ≠ "token" → k ≠ "tokenExpiry" →
         Api.localStorage win' !! k = Api.localStorage Samples.window !! k)
    ∧ Api.pathname win' = "/login".
Proof.
  apply (proj1 (proj2 (interceptor_401 (Some Samples.window)
                         Samples.unauthorized)
                  Samples.window eq_refl eq_refl)).
  simpl. discriminate.
Defined.

(** C10: [isTokenExpired] returns a boolean for every string, and [true]
    for every token that [jwtDecode] rejects; and [fetchUser] with no
    stored token, an empty one or an expired one only clears the loading
    flag (once before the early return, once in the [finally] block): it
    sends no request and sets no user. *)
Theorem fetchUser_guard (jwtDecode : string → option Auth.JwtPayload)
  (now : Z) (getMe : Js.promise User.t AxiosError) :
  (∀ token, jwtDecode token = None →
     Auth.isTokenExpired jwtDecode now token = true)
  ∧ ∀ storage : gmap string string,
      (storage !! "token" = None
       ∨ storage !! "token" = Some ""
       ∨ ∃ tok, storage !! "token" = Some tok
                ∧ Auth.isTokenExpired jwtDecode now tok = true) →
      Auth.fetchUser jwtDecode now getMe storage
      = [SetLoading false; SetLoading false]
      ∧ (∀ r, Call r ∉ Auth.fetchUser jwtDecode now getMe storage)
      ∧ (∀ u, SetUser u ∉ Auth.fetchUser jwtDecode now getMe storage).
Proof.
  split.
  - intros token H. unfold Auth.isTokenExpired. by rewrite H.
  - intros storage H.
    assert (Auth.fetchUser jwtDecode now getMe storage
            = [SetLoading false; SetLoading false]) as ->.
    { unfold Auth.fetchUser.
      destruct H as [-> | [-> | (tok & -> & Hx)]]; [done|done|].
      simpl. rewrite Hx. by rewrite orb_true_r. }
    split; [done|].
    split; intros x Hin;
      repeat (apply elem_of_cons in Hin as [Hin|Hin]; [discriminate|]);
      by apply elem_of_nil in Hin.
Qed.

Lemma fetchUser_guard_witness :
  Auth.isTokenExpired Samples.decode 5 "not a jwt" = true
  ∧ Auth.fetchUser Samples.decode 2000000
      (Js.Rejected (mkAxiosError None None "")) (<["token" := "good"]> ∅)
    = [SetLoading false; SetLoading false].
Proof.
  destruct (fetchUser_guard Samples.decode 5
              (Js.Rejected (mkAxiosError None None ""))) as [H1 _].
  destruct (fetchUser_guard Samples.decode 2000000
              (Js.Rejected (mkAxiosError None None ""))) as [_ H2].
  split.
  - apply H1. reflexivity.
  - apply H2. right. right. exists "good". split; reflexivity.
Defined.

(** C4 as stated fails: a promotion whose window opens at 200 and closes
    at 300 is labelled Active at time 100, before its start. *)
Lemma promotion_future_start_active :
  let p := Promotion.mk 1 "Spring" automatic (Some (Some 200)) (Some (Some 300)) in
  PromotionPage.label (PromotionPage.getPromotionStatus 100 p) = "Active"
  ∧ PromotionPage.windowActive 100 p = false.
Proof. split; reflexivity. Qed.

(** C4, amended: a promotion with a valid [endTime] is labelled Active at
    time T exactly when T is not after [endTime]; [startTime] is not
    consulted. *)
Theorem promotion_active_iff (T : Z) (p : Promotion.t) (e : Z) :
  Promotion.endTime p = Some (Some e) →
  PromotionPage.label (PromotionPage.getPromotionStatus T p) = "Active"
  ↔ T <= e.
Proof.
  intros He. unfold PromotionPage.getPromotionStatus. rewrite He.
  unfold Js.gt, Js.lt. destruct (Z.ltb_spec e T); simpl; split;
    intros; try done; lia.
Qed.

Lemma promotion_active_iff_witness :
  PromotionPage.label
    (PromotionPage.getPromotionStatus 100
       (Promotion.mk 1 "Spring" automatic (Some (Some 200)) (Some (Some 300))))
  = "Active".
Proof.
  apply (promotion_active_iff 100
           (Promotion.mk 1 "Spring" automatic (Some (Some 200))
              (Some (Some 300))) 300).
  - reflexivity.
  - lia.
Defined.

End ClientFacts.

(* ================================================================== *)
(** * Properties of the ledger *)
(* ================================================================== *)

Section LedgerFacts.

Import Ledger.

(** The scenarios of the ledger description, run on the model. *)
Example scenario_purchase :
  balance (run Samples.ledger0 (take 1 Samples.requested)) "alice001" = 160.
Proof. vm_compute. reflexivity. Qed.

Example scenario_transfer :
  balance (run Samples.ledger0 (take 2 Samples.requested)) "alice001" = 60
  ∧ balance (run Samples.ledger0 (take 2 Samples.requested)) "bobby002" = 100.
Proof. split; vm_compute; reflexivity. Qed.

Example scenario_redemption :
  balance Samples.ledger3 "alice001" = 60
  ∧ hasPending Samples.ledger3 "alice001" = true
  ∧ balance (run Samples.ledger0 Samples.scenario) "alice001" = 10
  ∧ hasPending (run Samples.ledger0 Samples.scenario) "alice001" = false.
Proof. repeat split; vm_compute; reflexivity. Qed.

Example scenario_event :
  Evt.pointsRemain <$> events Samples.ledgerE1 !! 3%nat = Some 500
  ∧ balance Samples.ledgerE1 "guest004" = 50
  ∧ step Samples.ledgerE1 (AwardEventPoints "organiz1" 3 60 None "")
    = Err ValidationError.
Proof. repeat split; vm_compute; reflexivity. Qed.

Lemma from_opt_Ok {A : Type} (e : Error) (o : option A) (a : A) :
  from_opt e o = Ok a → o = Some a.
Proof. destruct o; simpl; congruence. Qed.

Lemma requireRole_Ok (min : UserRole) (s : State) (actor : string)
  (a : Account.t) :
  requireRole min s actor = Ok a →
  accounts s !! actor = Some a ∧ atLeast min (Account.role a) = true.
Proof.
  unfold requireRole, actorAccount.
  destruct (accounts s !! actor) as [x|]; simpl; [|discriminate].
  destruct (atLeast min (Account.role x)) eqn:E; [|discriminate].
  intros [= ->]. done.
Qed.

Lemma requireRole_intro (min : UserRole) (s : State) (actor : string)
  (a : Account.t) :
  accounts s !! actor = Some a → atLeast min (Account.role a) = true →
  requireRole min s actor = Ok a.
Proof.
  intros H1 H2. unfold requireRole, actorAccount. rewrite H1. simpl.
  by rewrite H2.
Qed.

(** Peels the successful prefix of an operation: every bind and every
    check in [H : ... = Ok _] must have gone through. *)
Ltac peel H :=
  repeat
    (simpl in H;
     match type of H with
     | bind ?m _ = Ok _ =>
         let E := fresh "E" in
         destruct m eqn:E; [simpl in H | discriminate H]
     | (if ?b then _ else Err _) = Ok _ =>
         let E := fresh "C" in
         destruct b eqn:E; [| discriminate H]
     end).

(** Splits a membership in a literal list of effects into its cases and
    drops the cases that are not the effect looked for. *)
Ltac members H :=
  repeat match type of H with
         | _ ∈ _ ++ _ => apply elem_of_app in H as [H|H]
         | _ ∈ _ :: _ =>
             apply elem_of_cons in H as [H|H];
             [try discriminate H; try (injection H as ->) |]
         | _ ∈ [] => by apply elem_of_nil in H
         end.

(** *** Sums over the log *)

Lemma appliedSum_app (u : string) (l l' : list Entry.t) :
  appliedSum u (l ++ l') = appliedSum u l + appliedSum u l'.
Proof. induction l as [|e l IH]; simpl; [done|]. rewrite IH. lia. Qed.

Lemma appliedSum_snoc (u : string) (l : list Entry.t) (e : Entry.t) :
  appliedSum u (l ++ [e]) = appliedSum u l + contribution u e.
Proof. rewrite appliedSum_app. simpl. lia. Qed.

Lemma appliedSum_insert (u : string) (l : list Entry.t) (i : nat)
  (e e' : Entry.t) :
  l !! i = Some e →
  appliedSum u (<[i := e']> l)
  = appliedSum u l - contribution u e + contribution u e'.
Proof.
  revert i. induction l as [|x l IH]; intros [|i] H; simpl in *;
    try discriminate.
  - injection H as ->. lia.
  - rewrite (IH i H). lia.
Qed.

Lemma contribution_owner (u : string) (e : Entry.t) :
  Entry.owner e ≠ u → contribution u e = 0.
Proof. intros H. unfold contribution. by rewrite bool_decide_eq_false_2. Qed.

Lemma contribution_applied (e : Entry.t) :
  applied e = true → contribution (Entry.owner e) e = Entry.amount e.
Proof.
  intros H. unfold contribution. rewrite H.
  by rewrite bool_decide_eq_true_2.
Qed.

Lemma contribution_unapplied (u : string) (e : Entry.t) :
  applied e = false → contribution u e = 0.
Proof. intros H. unfold contribution. rewrite H. by rewrite andb_false_r. Qed.

(** *** Balances *)

Lemma balance_credit (s : State) (u v : string) (d : Z) (a : Account.t) :
  accounts s !! u = Some a →
  balance (credit u d s) v
  = balance s v + (if bool_decide (u = v) then d else 0).
Proof.
  intros H. unfold balance, credit. simpl.
  case_bool_decide as Huv.
  - subst v. rewrite lookup_alter_eq, H. reflexivity.
  - rewrite lookup_alter_ne by done. lia.
Qed.

Lemma credit_lookup (s : State) (u v : string) (d : Z) :
  accounts (credit u d s) !! v
  = (if bool_decide (u = v) then Account.credit d <$> accounts s !! v
     else accounts s !! v).
Proof.
  unfold credit. simpl. case_bool_decide as Huv.
  - subst. apply lookup_alter_eq.
  - by apply lookup_alter_ne.
Qed.

Lemma credit_is_Some (s : State) (u v : string) (d : Z) :
  is_Some (accounts (credit u d s) !! v) ↔ is_Some (accounts s !! v).
Proof.
  rewrite credit_lookup. case_bool_decide; [|done].
  by rewrite fmap_is_Some.
Qed.

(** *** Conservation is kept by each way of touching the state *)

Lemma conserved_events (s : State) (f : gmap nat Evt.t → gmap nat Evt.t) :
  conserved s → conserved (with_events f s).
Proof. done. Qed.

Lemma conserved_accounts_same (s : State)
  (f : gmap string Account.t → gmap string Account.t) :
  (∀ u, from_option Account.points 0 (f (accounts s) !! u) = balance s u) →
  conserved s → conserved (with_accounts f s).
Proof. intros Hf Hc u. unfold balance. simpl. rewrite Hf. apply Hc. Qed.

Lemma conserved_append_unapplied (s : State) (e : Entry.t) :
  applied e = false → conserved s → conserved (append e s).
Proof.
  intros He Hc u. unfold append. simpl. rewrite appliedSum_snoc.
  rewrite contribution_unapplied by done.
  change (balance s u = appliedSum u (entries s) + 0). rewrite Hc. lia.
Qed.

Lemma conserved_credit_append (s : State) (e : Entry.t) (a : Account.t) :
  accounts s !! Entry.owner e = Some a → applied e = true →
  conserved s →
  conserved (append e (credit (Entry.owner e) (Entry.amount e) s)).
Proof.
  intros Ha He Hc u. unfold append. simpl. rewrite appliedSum_snoc.
  change (balance (credit (Entry.owner e) (Entry.amount e) s) u
          = appliedSum u (entries s) + contribution u e).
  rewrite (balance_credit _ _ _ _ _ Ha), Hc.
  case_bool_decide as Hu.
  - subst u. by rewrite contribution_applied.
  - by rewrite contribution_owner.
Qed.

Lemma conserved_credit_update (s : State) (i : nat) (e e' : Entry.t)
  (a : Account.t) :
  entries s !! i = Some e → accounts s !! Entry.owner e = Some a →
  applied e = false → applied e' = true →
  Entry.owner e' = Entry.owner e → Entry.amount e' = Entry.amount e →
  conserved s →
  conserved (with_entries (fun l => <[i := e']> l)
               (credit (Entry.owner e) (Entry.amount e) s)).
Proof.
  intros Hi Ha He He' Ho Hm Hc u. simpl.
  rewrite (appliedSum_insert _ _ _ _ _ Hi).
  change (balance (credit (Entry.owner e) (Entry.amount e) s) u
          = appliedSum u (entries s) - contribution u e + contribution u e').
  rewrite (balance_credit _ _ _ _ _ Ha), Hc.
  rewrite (contribution_unapplied u e) by done.
  case_bool_decide as Hu.
  - subst u. rewrite <- Ho, contribution_applied by done. lia.
  - rewrite contribution_owner by congruence. lia.
Qed.

Lemma creditAll_conserved (actor remark : string) (amount : Z)
  (us : list string) (s s' : State) :
  creditAll actor remark amount us s = Ok s' → conserved s → conserved s'.
Proof.
  revert s. induction us as [|u us IH]; intros s H Hc; simpl in H.
  - by injection H as <-.
  - destruct (accounts s !! u) as [a|] eqn:Ha; simpl in H; [|discriminate].
    apply IH in H; [done|].
    by apply (conserved_credit_append s
                (Entry.mk u event amount None None [] false remark actor
                   None None) a).
Qed.

Lemma step_conserved (s s' : State) (o : Op) :
  step s o = Ok s' → conserved s → conserved s'.
Proof.
  intros H Hc. destruct o; simpl in H.
  - (* createPurchase *)
    unfold createPurchase in H. peel H.
    apply from_opt_Ok in E0.
    destruct (Account.suspicious a0) eqn:Hs; injection H as <-.
    + by apply conserved_append_unapplied.
    + match goal with
      | |- conserved (append ?e _) =>
          apply (conserved_credit_append s e a0); done
      end.
  - (* approveSuspicious *)
    unfold approveSuspicious in H. peel H. injection H as <-.
    apply from_opt_Ok in E0, E1.
    apply andb_true_iff in C as [Ct Cs]. apply bool_decide_eq_true in Ct.
    apply (conserved_credit_update s _ a0 (Entry.approve a0) a1);
      try done; unfold applied; simpl; rewrite Ct; [by rewrite Cs | done].
  - (* createAdjustment *)
    unfold createAdjustment in H. peel H. injection H as <-.
    apply from_opt_Ok in E0.
    match goal with
    | |- conserved (append ?e _) =>
        apply (conserved_credit_append s e a0); done
    end.
  - (* createTransfer *)
    unfold createTransfer in H. peel H. injection H as <-.
    unfold actorAccount in E. apply from_opt_Ok in E, E0.
    match goal with
    | |- conserved (append ?c (append ?d (credit ?r ?m ?s1))) =>
        pose proof (conserved_credit_append s d a E eq_refl Hc) as H1;
        assert (is_Some (accounts (append d (credit actor (- amount) s))
                           !! recipientUtorid)) as [ar Har]
    end.
    { simpl. apply credit_is_Some. eauto. }
    match goal with
    | |- conserved (append ?c _) =>
        pose proof (conserved_credit_append _ c ar Har eq_refl H1) as H2
    end.
    exact H2.
  - (* requestRedemption *)
    unfold requestRedemption in H. peel H. injection H as <-.
    by apply conserved_append_unapplied.
  - (* processRedemption *)
    unfold processRedemption in H. peel H. injection H as <-.
    apply from_opt_Ok in E0, E1.
    apply bool_decide_eq_true in C, C0.
    apply (conserved_credit_update s _ a0 (Entry.process actor a0) a1);
      try done; unfold applied; simpl; rewrite C; [by rewrite C0 | done].
  - (* awardEventPoints *)
    unfold awardEventPoints in H. peel H. injection H as <-.
    apply conserved_events. by eapply creditAll_conserved.
  - (* register *)
    unfold register in H. peel H. injection H as <-.
    apply bool_decide_eq_true in C0.
    apply conserved_accounts_same; [|done].
    intros u. unfold balance.
    destruct (decide (utorid = u)) as [->|Hne].
    + by rewrite lookup_insert_eq, C0.
    + by rewrite lookup_insert_ne.
  - (* setVerified *)
    unfold setVerified in H. peel H. injection H as <-.
    apply conserved_accounts_same; [|done].
    intros u. unfold balance. rewrite lookup_alter.
    case_decide; [|done]. subst. by destruct (accounts s !! u).
  - (* setRole *)
    unfold setRole in H. peel H. injection H as <-.
    apply conserved_accounts_same; [|done].
    intros u. unfold balance. rewrite lookup_alter.
    case_decide; [|done]. subst. by destruct (accounts s !! u).
  - (* setSuspicious *)
    unfold setSuspicious in H. peel H. injection H as <-.
    apply conserved_accounts_same; [|done].
    intros u. unfold balance. rewrite lookup_alter.
    case_decide; [|done]. subst. by destruct (accounts s !! u).
  - (* rsvp *)
    unfold rsvp in H. peel H. injection H as <-. by apply conserved_events.
  - (* cancelRsvp *)
    unfold cancelRsvp in H. peel H. injection H as <-.
    by apply conserved_events.
Qed.

Lemma exec_conserved (s : State) (o : Op) :
  conserved s → conserved (exec s o).
Proof.
  intros Hc. unfold exec. destruct (step s o) eqn:E; [|done].
  by eapply step_conserved.
Qed.

Lemma run_conserved (s : State) (ops : list Op) :
  conserved s → conserved (run s ops).
Proof.
  revert s. induction ops as [|o ops IH]; intros s Hc; simpl; [done|].
  apply IH. by apply exec_conserved.
Qed.

Lemma initial_conserved (s : State) : initial s → conserved s.
Proof.
  intros [He Hp] u. rewrite He. simpl. unfold balance.
  destruct (accounts s !! u) as [a|] eqn:Ha; simpl; [|done].
  by apply (Hp u).
Qed.

(** C1 (conservation): starting from a state with an empty log and zero
    balances, after every sequence of operations the points of every
    account equal the sum of the amounts of the transactions of that
    account whose effect is applied; suspicious unapproved purchases and
    unprocessed redemptions do not count. *)
Theorem conservation (s0 : State) (ops : list Op) (u : string)
  (a : Account.t) :
  initial s0 →
  accounts (run s0 ops) !! u = Some a →
  Account.points a = appliedSum u (entries (run s0 ops)).
Proof.
  intros Hi Ha.
  pose proof (run_conserved s0 ops (initial_conserved s0 Hi) u) as H.
  unfold balance in H. by rewrite Ha in H.
Qed.

Lemma conservation_witness :
  Account.points (Account.mk "Alice" "Alice@mail.utoronto.ca" regular 10 true false)
  = appliedSum "alice001" (entries (run Samples.ledger0 Samples.scenario)).
Proof.
  apply (conservation Samples.ledger0 Samples.scenario "alice001").
  - apply (bool_decide_unpack _). vm_compute. exact I.
  - vm_compute. reflexivity.
Defined.

(** *** Pending redemptions *)

Lemma pendingCount_snoc (u : string) (l : list Entry.t) (e : Entry.t) :
  pendingCount u (l ++ [e])
  = (pendingCount u l + (if pending u e then 1 else 0))%nat.
Proof.
  unfold pendingCount. rewrite List.filter_app, length_app. simpl.
  by destruct (pending u e).
Qed.

Lemma pendingCount_insert_le (u : string) (l : list Entry.t) (i : nat)
  (e' : Entry.t) :
  pending u e' = false →
  (pendingCount u (<[i := e']> l) <= pendingCount u l)%nat.
Proof.
  intros He'. unfold pendingCount. revert i.
  induction l as [|x l IH]; intros [|i]; simpl; try lia.
  - rewrite He'. destruct (pending u x); simpl; lia.
  - specialize (IH i). destruct (pending u x); simpl; lia.
Qed.

Lemma hasPending_false (s : State) (u : string) :
  hasPending s u = false → pendingCount u (entries s) = 0%nat.
Proof.
  unfold hasPending, pendingCount.
  induction (entries s) as [|x l IH]; simpl; [done|].
  destruct (pending u x); simpl; [discriminate | exact IH].
Qed.

Lemma hasPending_true (s : State) (u : string) :
  hasPending s u = true → (0 < pendingCount u (entries s))%nat.
Proof.
  unfold hasPending, pendingCount.
  induction (entries s) as [|x l IH]; simpl; [discriminate|].
  destruct (pending u x); simpl; [lia | exact IH].
Qed.

Lemma pending_type (u : string) (e : Entry.t) :
  Entry.type e ≠ redemption → pending u e = false.
Proof.
  intros H. unfold pending. rewrite (bool_decide_eq_false_2 _ H).
  by rewrite andb_false_r.
Qed.

Lemma single_append (s : State) (e : Entry.t) :
  Entry.type e ≠ redemption → singlePending s → singlePending (append e s).
Proof.
  intros He Hs u. unfold append. simpl. rewrite pendingCount_snoc.
  rewrite pending_type by done. specialize (Hs u). lia.
Qed.

Lemma single_accounts (s : State)
  (f : gmap string Account.t → gmap string Account.t) :
  singlePending s → singlePending (with_accounts f s).
Proof. done. Qed.

Lemma single_update (s : State) (i : nat) (e' : Entry.t) :
  (∀ u, pending u e' = false) → singlePending s →
  singlePending (with_entries (fun l => <[i := e']> l) s).
Proof.
  intros He Hs u. simpl.
  pose proof (pendingCount_insert_le u (entries s) i e' (He u)).
  specialize (Hs u). lia.
Qed.

Lemma creditAll_single (actor remark : string) (amount : Z)
  (us : list string) (s s' : State) :
  creditAll actor remark amount us s = Ok s' →
  singlePending s → singlePending s'.
Proof.
  revert s. induction us as [|u us IH]; intros s H Hs; simpl in H.
  - by injection H as <-.
  - destruct (accounts s !! u) as [a|]; simpl in H; [|discriminate].
    apply IH in H; [done|]. apply single_append; [done|].
    by apply single_accounts.
Qed.

Lemma step_single (s s' : State) (o : Op) :
  step s o = Ok s' → singlePending s → singlePending s'.
Proof.
  intros H Hs. destruct o; simpl in H.
  - unfold createPurchase in H. peel H.
    destruct (Account.suspicious a0); injection H as <-;
      apply single_append; done.
  - unfold approveSuspicious in H. peel H. injection H as <-.
    apply andb_true_iff in C as [Ct _]. apply bool_decide_eq_true in Ct.
    apply single_update; [|done].
    intros u. apply pending_type. simpl. congruence.
  - unfold createAdjustment in H. peel H. injection H as <-.
    by apply single_append.
  - unfold createTransfer in H. peel H. injection H as <-.
    apply single_append; [done|]. by apply single_append.
  - unfold requestRedemption in H. peel H. injection H as <-.
    apply negb_true_iff in C.
    intros u. unfold append. simpl. rewrite pendingCount_snoc.
    destruct (pending u _) eqn:Hp.
    + unfold pending in Hp. simpl in Hp.
      apply andb_true_iff in Hp as [Hp _].
      apply andb_true_iff in Hp as [Hp _].
      apply bool_decide_eq_true in Hp. subst u.
      rewrite (hasPending_false _ _ C). lia.
    + specialize (Hs u). lia.
  - unfold processRedemption in H. peel H. injection H as <-.
    apply single_update; [|done].
    intros u. unfold pending. simpl. by rewrite andb_false_r.
  - unfold awardEventPoints in H. peel H. injection H as <-.
    change (singlePending a1). by eapply creditAll_single.
  - unfold register in H. peel H. by injection H as <-.
  - unfold setVerified in H. peel H. by injection H as <-.
  - unfold setRole in H. peel H. by injection H as <-.
  - unfold setSuspicious in H. peel H. by injection H as <-.
  - unfold rsvp in H. peel H. by injection H as <-.
  - unfold cancelRsvp in H. peel H. by injection H as <-.
Qed.

Lemma run_single (s : State) (ops : list Op) :
  singlePending s → singlePending (run s ops).
Proof.
  revert s. induction ops as [|o ops IH]; intros s Hs; simpl; [done|].
  apply IH. unfold exec. destruct (step s o) eqn:E; [|done].
  by eapply step_single.
Qed.

(** C2 (single pending redemption): a request by an account that already
    has an unprocessed redemption fails with [ConflictError] whatever the
    amount, and leaves the state, hence the log, as it was; in every
    state reached from an empty log each account has at most one pending
    redemption; and the redeem page, once it has fetched an unprocessed
    redemption, keeps it in its state and does not show the request
    form. *)
Theorem single_pending_redemption :
  (∀ s actor a amount remark,
     accounts s !! actor = Some a → hasPending s actor = true →
     requestRedemption s actor amount remark = Err ConflictError
     ∧ exec s (RequestRedemption actor amount remark) = s)
  ∧ (∀ s0 ops u,
       initial s0 → (pendingCount u (entries (run s0 ops)) <= 1)%nat)
  ∧ (∀ results t,
       List.find RedeemPage.unprocessed results = Some t →
       SetPendingRedemption (Some t)
       ∈ RedeemPage.fetchPendingRedemption (Js.Resolved results))
  ∧ (∀ user t, RedeemPage.formShown user (Some t) = false).
Proof.
  split; [|split; [|split]]; cycle 2.
  { intros results t Hf. unfold RedeemPage.fetchPendingRedemption.
    rewrite Hf. simpl. rewrite !elem_of_cons. auto. }
  { intros [u|] t; simpl; [|done]. by rewrite andb_false_r. }
  - intros s actor a amount remark Ha Hp.
    assert (requestRedemption s actor amount remark = Err ConflictError)
      as E.
    { unfold requestRedemption, actorAccount. rewrite Ha. simpl.
      by rewrite Hp. }
    split; [done|]. unfold exec. simpl. by rewrite E.
  - intros s0 ops u [He _]. apply run_single.
    intros v. rewrite He. simpl. unfold pendingCount. simpl. lia.
Qed.

Lemma single_pending_redemption_witness :
  requestRedemption Samples.ledger3 "alice001" 10 "" = Err ConflictError
  ∧ (pendingCount "alice001"
       (entries (run Samples.ledger0
                   (Samples.requested
                    ++ [RequestRedemption "alice001" 10 ""]))) <= 1)%nat.
Proof.
  split.
  - refine (proj1 (proj1 single_pending_redemption Samples.ledger3
                     "alice001"
                     (Account.mk "Alice" "Alice@mail.utoronto.ca" regular 60
                        true false) 10 "" _ _));
      vm_compute; reflexivity.
  - apply (proj1 (proj2 single_pending_redemption)).
    apply (bool_decide_unpack _). vm_compute. exact I.
Defined.

(** *** Processing a redemption *)

Lemma processRedemption_ok (s : State) (actor : string) (a : Account.t)
  (i : nat) (e : Entry.t) (o : Account.t) :
  accounts s !! actor = Some a → atLeast cashier (Account.role a) = true →
  entries s !! i = Some e → Entry.type e = redemption →
  Entry.processedBy e = None → accounts s !! Entry.owner e = Some o →
  processRedemption s actor i
  = Ok (with_entries (fun l => <[i := Entry.process actor e]> l)
          (credit (Entry.owner e) (Entry.amount e) s)).
Proof.
  intros Ha Hr Hi Ht Hp Ho. unfold processRedemption.
  rewrite (requireRole_intro _ _ _ _ Ha Hr). simpl.
  rewrite Hi. simpl.
  rewrite (bool_decide_eq_true_2 _ Ht), (bool_decide_eq_true_2 _ Hp).
  rewrite Ho. reflexivity.
Qed.

Lemma processRedemption_processed (s : State) (actor : string)
  (a : Account.t) (i : nat) (e : Entry.t) :
  accounts s !! actor = Some a → atLeast cashier (Account.role a) = true →
  entries s !! i = Some e → Entry.type e = redemption →
  is_Some (Entry.processedBy e) →
  processRedemption s actor i = Err ConflictError.
Proof.
  intros Ha Hr Hi Ht [p Hp]. unfold processRedemption.
  rewrite (requireRole_intro _ _ _ _ Ha Hr). simpl.
  rewrite Hi. simpl. rewrite (bool_decide_eq_true_2 _ Ht).
  rewrite bool_decide_eq_false_2; [done|]. by rewrite Hp.
Qed.

(** C3 (idempotent processing): for a pending redemption, the first
    [processRedemption] by a cashier or higher succeeds, lowers the
    owner's balance by the redemption amount (the log holds its negation)
    and marks the transaction with [processedBy] and [redeemed]; a second
    call on the same id, by the same or any other cashier or higher, fails
    with [ConflictError], so the state and the balance stay as the first
    call left them.  The cashier page sends exactly this request,
    [PATCH /transactions/:id/processed] with [processed: true]. *)
Theorem processRedemption_once (s : State) (actor : string) (a : Account.t)
  (i : nat) (e : Entry.t) (o : Account.t) :
  accounts s !! actor = Some a → atLeast cashier (Account.role a) = true →
  entries s !! i = Some e → Entry.type e = redemption →
  Entry.processedBy e = None → accounts s !! Entry.owner e = Some o →
  ∃ s1,
    processRedemption s actor i = Ok s1
    ∧ balance s1 (Entry.owner e) = balance s (Entry.owner e) - (- Entry.amount e)
    ∧ (∀ v, v ≠ Entry.owner e → balance s1 v = balance s v)
    ∧ (∃ e1, entries s1 !! i = Some e1
             ∧ Entry.processedBy e1 = Some actor
             ∧ Entry.redeemed e1 = Some (- Entry.amount e)
             ∧ Entry.amount e1 = Entry.amount e)
    ∧ processRedemption s1 actor i = Err ConflictError
    ∧ (∀ actor2 a2,
         accounts s1 !! actor2 = Some a2 →
         atLeast cashier (Account.role a2) = true →
         processRedemption s1 actor2 i = Err ConflictError)
    ∧ exec s1 (ProcessRedemption actor i) = s1
    ∧ ∀ patch id r,
        Call r ∈ CashierRedemptionPage.handleProcess patch id →
        r = mkRequest PATCH (TransactionProcessed id)
              [("processed", JBool true)].
Proof.
  intros Ha Hr Hi Ht Hp Ho.
  eexists. split; [by eapply processRedemption_ok|].
  set (s1 := with_entries _ _).
  assert (Hi1 : entries s1 !! i = Some (Entry.process actor e)).
  { subst s1. simpl. apply list_lookup_insert_eq.
    by eapply lookup_lt_Some. }
  assert (Hsecond : ∀ actor2 a2,
            accounts s1 !! actor2 = Some a2 →
            atLeast cashier (Account.role a2) = true →
            processRedemption s1 actor2 i = Err ConflictError).
  { intros actor2 a2 Ha2 Hr2.
    by eapply (processRedemption_processed s1 actor2 a2 i). }
  assert (Ha1 : ∃ a1, accounts s1 !! actor = Some a1
                      ∧ Account.role a1 = Account.role a).
  { subst s1. change (∃ a1,
      accounts (credit (Entry.owner e) (Entry.amount e) s) !! actor = Some a1
      ∧ Account.role a1 = Account.role a).
    rewrite credit_lookup. case_bool_decide.
    - rewrite Ha. simpl. eauto.
    - eauto. }
  destruct Ha1 as (a1 & Ha1 & Hr1).
  assert (Hagain : processRedemption s1 actor i = Err ConflictError).
  { apply (Hsecond actor a1 Ha1). by rewrite Hr1. }
  repeat split.
  - change (balance (credit (Entry.owner e) (Entry.amount e) s) (Entry.owner e)
            = balance s (Entry.owner e) - - Entry.amount e).
    rewrite (balance_credit _ _ _ _ _ Ho).
    rewrite bool_decide_eq_true_2 by done. lia.
  - intros v Hv.
    change (balance (credit (Entry.owner e) (Entry.amount e) s) v
            = balance s v).
    rewrite (balance_credit _ _ _ _ _ Ho).
    rewrite bool_decide_eq_false_2 by done. lia.
  - exists (Entry.process actor e). done.
  - exact Hagain.
  - exact Hsecond.
  - unfold exec. simpl. by rewrite Hagain.
  - intros patch id r Hin. unfold CashierRedemptionPage.handleProcess in Hin.
    destruct (String.eqb id ""); simpl in Hin.
    + apply list_elem_of_singleton in Hin. discriminate.
    + repeat (apply elem_of_cons in Hin as [Hin|Hin]; [discriminate|]).
      apply elem_of_cons in Hin as [Hin|Hin]; [by injection Hin|].
      destruct (patch _) as [d|e0]; simpl in Hin.
      * repeat (apply elem_of_cons in Hin as [Hin|Hin]; [discriminate|]).
        by apply elem_of_nil in Hin.
      * repeat case_bool_decide; simpl in Hin;
          repeat (apply elem_of_cons in Hin as [Hin|Hin]; [discriminate|]);
          by apply elem_of_nil in Hin.
Qed.

Lemma processRedemption_once_witness :
  ∃ s1,
    processRedemption Samples.ledger3 "cashier1" 3 = Ok s1
    ∧ balance s1 "alice001" = 60 - 50
    ∧ processRedemption s1 "cashier1" 3 = Err ConflictError.
Proof.
  destruct (processRedemption_once Samples.ledger3 "cashier1"
              (Samples.person "Cass" cashier true) 3
              (Entry.mk "alice001" redemption (-50) None None [] false ""
                 "alice001" None None)
              (Account.mk "Alice" "Alice@mail.utoronto.ca" regular 60 true
                 false))
    as (s1 & H1 & H2 & _ & _ & H3 & _ & _ & _);
    [vm_compute; reflexivity ..|].
  exists s1. repeat split; [exact H1 | exact H2 | exact H3].
Defined.

(** *** The verified flag *)

Lemma verifiedAt_alter (s : State) (k u : string)
  (f : Account.t → Account.t) :
  (∀ a, Account.verified (f a) = Account.verified a) →
  verifiedAt (with_accounts (alter f k) s) u = verifiedAt s u.
Proof.
  intros Hf. unfold verifiedAt. simpl. rewrite lookup_alter.
  case_decide; [|done]. subst. destruct (accounts s !! u); simpl; [|done].
  apply Hf.
Qed.

Lemma verifiedAt_credit (s : State) (k u : string) (d : Z) :
  verifiedAt (credit k d s) u = verifiedAt s u.
Proof. by apply verifiedAt_alter. Qed.

Lemma verifiedAt_append (s : State) (e : Entry.t) (u : string) :
  verifiedAt (append e s) u = verifiedAt s u.
Proof. done. Qed.

Lemma creditAll_verified (actor remark : string) (amount : Z)
  (us : list string) (s s' : State) (u : string) :
  creditAll actor remark amount us s = Ok s' →
  verifiedAt s' u = verifiedAt s u.
Proof.
  revert s. induction us as [|v us IH]; intros s H; simpl in H.
  - by injection H as <-.
  - destruct (accounts s !! v) as [a|]; simpl in H; [|discriminate].
    rewrite (IH _ H), verifiedAt_append. apply verifiedAt_credit.
Qed.

Lemma step_verified (s s' : State) (o : Op) (u : string) :
  step s o = Ok s' → verifiedAt s u = true → verifiedAt s' u = true.
Proof.
  intros H Hv. destruct o; simpl in H.
  - unfold createPurchase in H. peel H.
    destruct (Account.suspicious a0); injection H as <-;
      rewrite verifiedAt_append, ?verifiedAt_credit; done.
  - unfold approveSuspicious in H. peel H. injection H as <-.
    change (verifiedAt (credit (Entry.owner a0) (Entry.amount a0) s) u = true).
    by rewrite verifiedAt_credit.
  - unfold createAdjustment in H. peel H. injection H as <-.
    by rewrite verifiedAt_append, verifiedAt_credit.
  - unfold createTransfer in H. peel H. injection H as <-.
    by rewrite !verifiedAt_append, !verifiedAt_credit.
  - unfold requestRedemption in H. peel H. by injection H as <-.
  - unfold processRedemption in H. peel H. injection H as <-.
    change (verifiedAt (credit (Entry.owner a0) (Entry.amount a0) s) u = true).
    by rewrite verifiedAt_credit.
  - unfold awardEventPoints in H. peel H. injection H as <-.
    change (verifiedAt a1 u = true).
    by rewrite (creditAll_verified _ _ _ _ _ _ _ E1).
  - unfold register in H. peel H. injection H as <-.
    apply bool_decide_eq_true in C0.
    unfold verifiedAt in *. simpl.
    destruct (decide (utorid = u)) as [->|Hne].
    + rewrite C0 in Hv. discriminate.
    + by rewrite lookup_insert_ne.
  - unfold setVerified in H. peel H. injection H as <-.
    unfold verifiedAt in *. simpl. rewrite lookup_alter.
    case_decide; [|done]. subst. by destruct (accounts s !! u).
  - unfold setRole in H. peel H. injection H as <-.
    by rewrite verifiedAt_alter.
  - unfold setSuspicious in H. peel H. injection H as <-.
    by rewrite verifiedAt_alter.
  - unfold rsvp in H. peel H. by injection H as <-.
  - unfold cancelRsvp in H. peel H. by injection H as <-.
Qed.

Lemma run_verified (s : State) (ops : list Op) (u : string) :
  verifiedAt s u = true → verifiedAt (run s ops) u = true.
Proof.
  revert s. induction ops as [|o ops IH]; intros s Hv; simpl; [done|].
  apply IH. unfold exec. destruct (step s o) eqn:E; [|done].
  by eapply step_verified.
Qed.

(** C8 (verification monotonicity): from any state, no sequence of
    operations takes the verified flag of an account from true to false;
    a manager or superuser can set it to true on any existing account;
    a request to set it to false is refused; and the manager page only
    ever sends [verified: true], for a user that is not yet verified:
    none of its four [PATCH /users/:id] handlers sends [verified: false]. *)
Theorem verified_monotone :
  (∀ s ops u, verifiedAt s u = true → verifiedAt (run s ops) u = true)
  ∧ (∀ s actor a target t,
       accounts s !! actor = Some a →
       atLeast manager (Account.role a) = true →
       accounts s !! target = Some t →
       ∃ s', setVerified s actor target true = Ok s'
             ∧ verifiedAt s' target = true)
  ∧ (∀ s actor target, ∃ e, setVerified s actor target false = Err e)
  ∧ (∀ patchUser user r,
       Call r ∈ ManagerUserDetailPage.handleToggleVerified patchUser user →
       body r = [("verified", JBool true)]
       ∧ ∃ u, user = Some u ∧ User.verified u = false)
  ∧ (∀ patchUser confirm user email newRole r,
       Call r ∈ (ManagerUserDetailPage.handleUpdateUser patchUser user email
                 ++ ManagerUserDetailPage.handlePromoteUser patchUser confirm
                      user newRole
                 ++ ManagerUserDetailPage.handleToggleSuspicious patchUser
                      user
                 ++ ManagerUserDetailPage.handleToggleVerified patchUser
                      user)%list →
       ("verified", JBool false) ∉ body r).
Proof.
  split; [exact run_verified|]. split; [|split; [|split]]; cycle 3.
  { intros patchUser confirm [u|] email newRole r Hin;
      [|by apply elem_of_nil in Hin].
    unfold ManagerUserDetailPage.handleUpdateUser,
      ManagerUserDetailPage.handlePromoteUser,
      ManagerUserDetailPage.handleToggleSuspicious,
      ManagerUserDetailPage.handleToggleVerified in Hin.
    assert (∃ k v, (k ≠ "verified" ∨ v = JBool true) ∧ body r = [(k, v)])
      as (k & v & Hv & ->).
    { destruct (confirm _), (User.verified u);
        repeat match type of Hin with
               | context [patchUser ?q] => destruct (patchUser q)
               end;
        simpl in Hin; members Hin; simpl;
        do 2 eexists; (split; [|reflexivity]); (by left) || (by right). }
    intros Hin'. apply list_elem_of_singleton in Hin'.
    injection Hin' as <- <-. by destruct Hv. }
  - intros s actor a target t Ha Hr Ht. eexists. split.
    + unfold setVerified. rewrite (requireRole_intro _ _ _ _ Ha Hr). simpl.
      rewrite Ht. reflexivity.
    + unfold verifiedAt. simpl. rewrite lookup_alter_eq, Ht. reflexivity.
  - intros s actor target. unfold setVerified.
    destruct (requireRole manager s actor); simpl; [|eauto].
    destruct (accounts s !! target); simpl; eauto.
  - intros patchUser [u|] r Hin; simpl in Hin; [|by apply elem_of_nil in Hin].
    destruct (User.verified u) eqn:Hu.
    + exfalso. simpl in Hin.
      repeat (apply elem_of_cons in Hin as [Hin|Hin]; [discriminate|]).
      by apply elem_of_nil in Hin.
    + assert (r = mkRequest PATCH (UsersById (User.id u))
                    [("verified", JBool true)]) as ->.
      { destruct (patchUser _); simpl in Hin;
          repeat (apply elem_of_cons in Hin as [Hin|Hin];
                  [try discriminate; by injection Hin|]);
          by apply elem_of_nil in Hin. }
      split; [done|]. eauto.
Qed.

Lemma verified_monotone_witness :
  verifiedAt (run Samples.ledger0
                (Samples.scenario
                 ++ [SetVerified "manager1" "alice001" false;
                     SetRole "manager1" "alice001" cashier]))
    "alice001" = true.
Proof.
  apply (proj1 verified_monotone). vm_compute. reflexivity.
Defined.

(** *** Event awards *)

Lemma creditAll_events (actor remark : string) (amount : Z)
  (us : list string) (s s' : State) :
  creditAll actor remark amount us s = Ok s' → events s' = events s.
Proof.
  revert s. induction us as [|v us IH]; intros s H; simpl in H.
  - by injection H as <-.
  - destruct (accounts s !! v) as [a|]; simpl in H; [|discriminate].
    by rewrite (IH _ H).
Qed.











(** *** Transfers *)










End LedgerFacts.


(* ================================================================== *)
(** * Further properties of the client pages *)
(* ================================================================== *)

Section MoreClientFacts.

(** Splits a membership in a literal list into its cases and drops the
    cases that cannot be the element looked for. *)
Ltac cases_in H :=
  repeat match type of H with
         | _ ∈ _ ++ _ => apply elem_of_app in H as [H|H]
         | _ ∈ _ :: _ =>
             apply elem_of_cons in H as [H|H];
             [try discriminate H; try (injection H as ->) |]
         | _ ∈ [] => by apply elem_of_nil in H
         end.

(** *** Requests after a 401 *)

(** X1: once the response interceptor has handled a 401 away from the
    login page, neither the request interceptor nor the form-data helper
    attaches an Authorization header: the request headers stay as they
    were given. *)
Theorem no_bearer_after_401 (win : Api.Window) (e : AxiosError)
  (headers : gmap string string) :
  status e = Some 401 → Api.pathname win ≠ "/login" →
  ApiClient.onRequest (Api.onRejected (Some win) e).1 headers = headers
  ∧ ApiClient.formDataHeaders (Api.onRejected (Some win) e).1 = ∅.
Proof.
  intros H401 Hp. unfold Api.onRejected. simpl.
  rewrite bool_decide_eq_true_2 by done.
  apply string_eqb_false in Hp. rewrite Hp. simpl.
  unfold ApiClient.onRequest, ApiClient.formDataHeaders. simpl.
  rewrite lookup_delete_ne by done. rewrite lookup_delete_eq. done.
Qed.

Lemma no_bearer_after_401_witness :
  ApiClient.onRequest
    (Api.onRejected (Some Samples.window) Samples.unauthorized).1
    ApiClient.defaultHeaders
  = ApiClient.defaultHeaders
  ∧ ApiClient.formDataHeaders
      (Api.onRejected (Some Samples.window) Samples.unauthorized).1 = ∅.
Proof.
  apply (no_bearer_after_401 Samples.window Samples.unauthorized
           ApiClient.defaultHeaders).
  - reflexivity.
  - simpl. discriminate.
Defined.


(** *** Session state *)

Lemma fetchUser_quiet (jwtDecode : string → option Auth.JwtPayload) (now : Z)
  (getMe : Js.promise User.t AxiosError) (st : gmap string string) :
  falsy_str (st !! "token")
  || from_option (Auth.isTokenExpired jwtDecode now) false (st !! "token")
  = true →
  Auth.fetchUser jwtDecode now getMe st = [SetLoading false; SetLoading false].
Proof. intros H. unfold Auth.fetchUser. by rewrite H. Qed.

(** X3: [logout] clears the user, removes [token] and [tokenExpiry] (and
    no other key) and goes to /login; a [fetchUser] that follows sends no
    request and leaves the user cleared. *)
Theorem logout_then_fetchUser (jwtDecode : string → option Auth.JwtPayload)
  (now : Z) (getMe : Js.promise User.t AxiosError) (s : AuthSession.t) :
  AuthSession.user (AuthSession.logout s) = None
  ∧ AuthSession.route (AuthSession.logout s) = Some "/login"
  ∧ AuthSession.storage (AuthSession.logout s) !! "token" = None
  ∧ AuthSession.storage (AuthSession.logout s) !! "tokenExpiry" = None
  ∧ (∀ k, k ≠ "token" → k ≠ "tokenExpiry" →
       AuthSession.storage (AuthSession.logout s) !! k
       = AuthSession.storage s !! k)
  ∧ Auth.fetchUser jwtDecode now getMe
      (AuthSession.storage (AuthSession.logout s))
    = [SetLoading false; SetLoading false]
  ∧ AuthSession.user
      (AuthSession.settle
         (Auth.fetchUser jwtDecode now getMe
            (AuthSession.storage (AuthSession.logout s)))
         (AuthSession.logout s)) = None.
Proof.
  assert (Ht : AuthSession.storage (AuthSession.logout s) !! "token" = None).
  { simpl. rewrite lookup_delete_ne by done. apply lookup_delete_eq. }
  assert (Hq : Auth.fetchUser jwtDecode now getMe
                 (AuthSession.storage (AuthSession.logout s))
               = [SetLoading false; SetLoading false]).
  { apply fetchUser_quiet. by rewrite Ht. }
  repeat split; try done.
  - simpl. apply lookup_delete_eq.
  - intros k H1 H2. simpl. by rewrite !lookup_delete_ne.
  - by rewrite Hq.
Qed.

(** X4: [fetchUser] never removes a token on its own judgement: with a
    missing, empty or expired token, or after a successful request, the
    storage is as before.  It removes [token] and [tokenExpiry] only when
    the request was rejected, and after a rejected request the next
    [fetchUser] sends nothing, whatever the server would answer. *)
Theorem fetchUser_rejected_then_quiet
  (jwtDecode : string → option Auth.JwtPayload) (now : Z) (e : AxiosError)
  (u : User.t) (getMe2 : Js.promise User.t AxiosError) (s : AuthSession.t) :
  AuthSession.storage
    (AuthSession.settle
       (Auth.fetchUser jwtDecode now (Js.Resolved u) (AuthSession.storage s))
       s) = AuthSession.storage s
  ∧ AuthSession.user
      (AuthSession.settle
         (Auth.fetchUser jwtDecode now (Js.Rejected e) (AuthSession.storage s))
         s) = AuthSession.user s
  ∧ AuthSession.loading
      (AuthSession.settle
         (Auth.fetchUser jwtDecode now (Js.Rejected e) (AuthSession.storage s))
         s) = false
  ∧ Auth.fetchUser jwtDecode now getMe2
      (AuthSession.storage
         (AuthSession.settle
            (Auth.fetchUser jwtDecode now (Js.Rejected e)
               (AuthSession.storage s)) s))
    = [SetLoading false; SetLoading false].
Proof.
  unfold Auth.fetchUser at 1 2 3 5.
  destruct (falsy_str (AuthSession.storage s !! "token")
            || from_option (Auth.isTokenExpired jwtDecode now) false
                 (AuthSession.storage s !! "token")) eqn:G; simpl.
  - repeat split. by apply fetchUser_quiet.
  - repeat split. apply fetchUser_quiet.
    rewrite lookup_delete_ne by done. by rewrite lookup_delete_eq.
Qed.

(** X5: on the login page, [login] resolves exactly when both the token
    request and the user request resolve, and then the token and its
    expiry are stored, the user is set and the route is /dashboard.  A
    rejected token request leaves the state untouched.  When the token
    request resolves but the user request is rejected, [login] rejects and
    the new token stays in localStorage: user and route are as before. *)
Theorem login_outcomes
  (postTokens : string → string → Js.promise AuthSession.AuthResponse AxiosError)
  (getMe : Js.promise User.t AxiosError) (utorid password : string)
  (s : AuthSession.t) :
  ((AuthSession.login postTokens getMe utorid password s).2 = Js.Resolved tt
   ↔ ∃ data u, postTokens utorid password = Js.Resolved data
               ∧ getMe = Js.Resolved u)
  ∧ (∀ data u,
       postTokens utorid password = Js.Resolved data →
       getMe = Js.Resolved u →
       let s' := (AuthSession.login postTokens getMe utorid password s).1 in
       AuthSession.user s' = Some u
       ∧ AuthSession.route s' = Some "/dashboard"
       ∧ AuthSession.storage s' !! "token" = Some (AuthSession.token data)
       ∧ AuthSession.storage s' !! "tokenExpiry"
         = Some (AuthSession.expiresAt data))
  ∧ (∀ e, postTokens utorid password = Js.Rejected e →
       AuthSession.login postTokens getMe utorid password s
       = (s, Js.Rejected (or_str (data_error e) "Login failed")))
  ∧ (∀ data e,
       postTokens utorid password = Js.Resolved data →
       getMe = Js.Rejected e →
       let r := AuthSession.login postTokens getMe utorid password s in
       r.2 = Js.Rejected (or_str (data_error e) "Login failed")
       ∧ AuthSession.storage r.1 !! "token" = Some (AuthSession.token data)
       ∧ AuthSession.user r.1 = AuthSession.user s
       ∧ AuthSession.route r.1 = AuthSession.route s).
Proof.
  unfold AuthSession.login. split; [|split; [|split]].
  - split.
    + destruct (postTokens utorid password) as [data|e]; [|discriminate].
      destruct getMe as [u|e]; [eauto | discriminate].
    + intros (data & u & -> & ->). reflexivity.
  - intros data u H H0. rewrite H, H0. simpl. repeat split.
    + rewrite lookup_insert_ne by done. apply lookup_insert_eq.
    + apply lookup_insert_eq.
  - intros e H. by rewrite H.
  - intros data e H H0. rewrite H, H0. simpl. repeat split.
    rewrite lookup_insert_ne by done. apply lookup_insert_eq.
Qed.

(** *** Routing and access *)

(** X6: the home page and the dashboard layout never bounce a visitor
    between them: the home page sends to /dashboard exactly when the
    layout renders the navigation shell, it sends to /login exactly when
    the layout does, a layout that redirects renders nothing, and while
    the user is loading neither redirects. *)
Theorem home_layout_agree (user : option User.t) (loading : bool) :
  (HomePage.redirect user loading = Some "/dashboard"
   ↔ ∃ c m, DashboardLayout.render user loading = DashboardLayout.Shell c m)
  ∧ (HomePage.redirect user loading = Some "/login"
     ↔ DashboardLayout.redirect user loading = Some "/login")
  ∧ (DashboardLayout.redirect user loading = Some "/login" →
     DashboardLayout.render user loading = DashboardLayout.Nothing)
  ∧ (loading = true →
     HomePage.redirect user loading = None
     ∧ DashboardLayout.redirect user loading = None
     ∧ DashboardLayout.render user loading = DashboardLayout.Spinner).
Proof.
  unfold HomePage.redirect, DashboardLayout.redirect, DashboardLayout.render.
  destruct loading, user as [u|]; simpl; repeat split;
    try discriminate; try done; eauto.
  all: by intros (c & m & H).
Qed.

(** X7: the navigation bar shows the Cashier link exactly to the users
    the cashier redemption page admits, and the Manager link exactly to
    the users the transaction detail, user detail and promotion management
    pages admit; whoever sees the Manager link sees the Cashier link. *)
Theorem nav_links_match_guards (u : User.t) :
  (DashboardLayout.cashierLink u = true
   ↔ PageGuard.cashierRedemption (Some u) = Granted)
  ∧ (DashboardLayout.managerLink u = true
     ↔ PageGuard.transactionDetail (Some u) = Granted)
  ∧ (DashboardLayout.managerLink u = true
     ↔ PageGuard.managerUserDetail (Some u) = Granted)
  ∧ (DashboardLayout.managerLink u = true
     ↔ PageGuard.managerPromotions (Some u) = Granted)
  ∧ (DashboardLayout.managerLink u = true →
     DashboardLayout.cashierLink u = true).
Proof.
  unfold DashboardLayout.cashierLink, DashboardLayout.managerLink,
    PageGuard.cashierRedemption, PageGuard.transactionDetail,
    PageGuard.managerUserDetail, PageGuard.managerPromotions.
  destruct (User.role u); simpl; repeat split; done.
Qed.

(** *** Role buttons *)

(** X8: on the user detail page (open to managers and superusers only) a
    superuser sees, for any other user, exactly the three buttons of the
    roles that user does not have; a manager sees one button for a regular
    user (cashier) or a cashier (regular) and none for a manager or a
    superuser; nobody gets a button on their own record.  The hint
    paragraph appears exactly when there is no button, and its third text,
    "No role change options available for this user.", never appears. *)
Theorem role_buttons (user currentUser : User.t) :
  PageGuard.managerUserDetail (Some currentUser) = Granted →
  (User.id user = User.id currentUser →
     UserActions.roleButtons user currentUser = []
     ∧ UserActions.roleHint user currentUser
       = Some "You cannot change your own role.")
  ∧ (User.id user ≠ User.id currentUser → User.role currentUser = superuser →
     UserActions.roleButtons user currentUser
     = List.filter (fun r => negb (String.eqb r (role_name (User.role user))))
         ["regular"; "cashier"; "manager"; "superuser"]
     ∧ length (UserActions.roleButtons user currentUser) = 3%nat
     ∧ UserActions.roleHint user currentUser = None)
  ∧ (User.id user ≠ User.id currentUser → User.role currentUser = manager →
     UserActions.roleButtons user currentUser
     = match User.role user with
       | regular => ["cashier"]
       | cashier => ["regular"]
       | _ => []
       end
     ∧ UserActions.roleHint user currentUser
       = match User.role user with
         | regular | cashier => None
         | _ => Some "You can only manage regular and cashier roles."
         end)
  ∧ (UserActions.roleHint user currentUser = None
     ↔ UserActions.roleButtons user currentUser ≠ [])
  ∧ UserActions.roleHint user currentUser
    ≠ Some "No role change options available for this user.".
Proof.
  intros Hg. unfold PageGuard.managerUserDetail in Hg.
  unfold UserActions.roleButtons, UserActions.roleHint,
    ManagerUserDetailPage.canPromoteTo.
  destruct (Z.eqb_spec (User.id user) (User.id currentUser)) as [Hid|Hid].
  - simpl. repeat split; done.
  - destruct (User.role currentUser) eqn:Hcu; simpl in Hg; try discriminate;
      destruct (User.role user) eqn:Hu; simpl;
      repeat split; try done; try discriminate.
Qed.

Lemma role_buttons_witness :
  UserActions.roleButtons Samples.aliceView MoreSamples.rootView
  = ["cashier"; "manager"; "superuser"]
  ∧ UserActions.roleButtons Samples.aliceView Samples.maxView = ["cashier"]
  ∧ UserActions.roleHint MoreSamples.rootView Samples.maxView
    = Some "You can only manage regular and cashier roles.".
Proof.
  destruct (role_buttons Samples.aliceView MoreSamples.rootView eq_refl)
    as (_ & Hs & _).
  destruct (role_buttons Samples.aliceView Samples.maxView eq_refl)
    as (_ & _ & Hm & _).
  destruct (role_buttons MoreSamples.rootView Samples.maxView eq_refl)
    as (_ & _ & Hm' & _).
  split; [|split].
  - apply Hs; [discriminate | reflexivity].
  - apply Hm; [discriminate | reflexivity].
  - apply Hm'; [discriminate | reflexivity].
Defined.

(** *** Adjustments *)

Lemma trimEnd_idem (s : string) :
  JsString.trimEnd (JsString.trimEnd s) = JsString.trimEnd s.
Proof.
  induction s as [|a r IH]; simpl; [done|].
  destruct (JsString.trimEnd r) as [|b r'] eqn:E.
  - destruct (Js.is_ws a) eqn:Ha; simpl; [done|]. by rewrite Ha.
  - simpl in *. by rewrite IH.
Qed.

Lemma skip_ws_head (s : string) :
  Js.skip_ws s = "" ∨ ∃ a r, Js.skip_ws s = String a r ∧ Js.is_ws a = false.
Proof.
  induction s as [|a r IH]; simpl; [by left|].
  destruct (Js.is_ws a) eqn:Ha; [done|]. right. eauto.
Qed.

Lemma trimEnd_head (a : ascii) (r : string) :
  Js.is_ws a = false → ∃ r', JsString.trimEnd (String a r) = String a r'.
Proof.
  intros Ha. simpl. destruct (JsString.trimEnd r); [|eauto].
  rewrite Ha. eauto.
Qed.

Lemma trim_idem (s : string) :
  JsString.trim (JsString.trim s) = JsString.trim s.
Proof.
  unfold JsString.trim.
  destruct (skip_ws_head s) as [-> | (a & r & -> & Ha)]; [done|].
  destruct (trimEnd_head a r Ha) as [r' Hr].
  rewrite Hr. simpl Js.skip_ws. rewrite Ha. rewrite <- Hr.
  apply trimEnd_idem.
Qed.

(** X9: for ASCII input and an amount in the safe-integer range,
    [handleCreateAdjustment] sends a request exactly when the amount
    field parses to a non-zero integer and the remark is not blank; the
    request is [POST /transactions] with that amount, the id of the
    transaction on the page as [relatedId] and the remark trimmed, so the
    remark sent is never empty and never has white space around it. *)
Theorem adjustment_requests (send : Fetch → Js.promise unit AxiosError)
  (t : Transaction.t) (adjustmentAmount adjustmentRemark : string)
  (r : Fetch) :
  JsNum.isAscii adjustmentAmount = true →
  JsNum.isAscii adjustmentRemark = true →
  JsNum.safeNum (Js.parseInt adjustmentAmount) →
  (PCall r ∈ TransactionDetailPage.handleCreateAdjustment send (Some t)
               adjustmentAmount adjustmentRemark
   ↔ ∃ amount,
       Js.parseInt adjustmentAmount = Some amount ∧ amount ≠ 0
       ∧ JsString.trim adjustmentRemark ≠ ""
       ∧ r = TransactionDetailPage.adjustmentRequest t amount adjustmentRemark)
  ∧ (PCall r ∈ TransactionDetailPage.handleCreateAdjustment send (Some t)
                 adjustmentAmount adjustmentRemark →
     f_method r = POST ∧ url r = "/transactions"
     ∧ ("relatedId", JNum (Some (Transaction.id t))) ∈ payload r
     ∧ ∃ remark, ("remark", JStr remark) ∈ payload r
                 ∧ remark ≠ "" ∧ JsString.trim remark = remark).
Proof.
  intros _ _ _.
  assert (Hiff : PCall r ∈ TransactionDetailPage.handleCreateAdjustment send
                   (Some t) adjustmentAmount adjustmentRemark
                 ↔ ∃ amount,
                     Js.parseInt adjustmentAmount = Some amount ∧ amount ≠ 0
                     ∧ JsString.trim adjustmentRemark ≠ ""
                     ∧ r = TransactionDetailPage.adjustmentRequest t amount
                             adjustmentRemark).
  { unfold TransactionDetailPage.handleCreateAdjustment.
    destruct (Js.parseInt adjustmentAmount) as [amount|].
    - destruct (Z.eqb_spec amount 0) as [Hz|Hz].
      + split; [intros H; cases_in H|].
        intros (a & [= <-] & Ha & _). done.
      + destruct (String.eqb (JsString.trim adjustmentRemark) "") eqn:Ht.
        * apply string_eqb_true in Ht.
          split; [intros H; cases_in H|]. intros (a & _ & _ & Hne & _). done.
        * apply string_eqb_false in Ht. split.
          -- intros H. exists amount.
             assert (r = TransactionDetailPage.adjustmentRequest t amount
                           adjustmentRemark) as ->; [|done].
             destruct (send _); simpl in H; cases_in H; done.
          -- intros (a & [= <-] & _ & _ & ->). simpl.
             rewrite !elem_of_cons. auto.
    - split; [intros H; cases_in H|]. intros (a & Hd & _). discriminate. }
  split; [exact Hiff|].
  intros H. apply Hiff in H as (amount & _ & _ & Hne & ->).
  unfold TransactionDetailPage.adjustmentRequest. simpl. repeat split.
  - destruct (Transaction.utorid t); simpl; rewrite !elem_of_cons; auto 10.
  - exists (JsString.trim adjustmentRemark). split; [|split].
    + destruct (Transaction.utorid t); simpl; rewrite !elem_of_cons; auto 10.
    + exact Hne.
    + apply trim_idem.
Qed.

Lemma adjustment_requests_witness :
  PCall (TransactionDetailPage.adjustmentRequest MoreSamples.purchaseView
           (-40) "  counted twice ")
  ∈ TransactionDetailPage.handleCreateAdjustment MoreSamples.sent
      (Some MoreSamples.purchaseView) "-40" "  counted twice "
  ∧ ("remark", JStr "counted twice")
    ∈ payload (TransactionDetailPage.adjustmentRequest
                 MoreSamples.purchaseView (-40) "  counted twice ").
Proof.
  assert (Hs : JsNum.safeNum (Js.parseInt "-40"))
    by (vm_compute; split; reflexivity).
  destruct (adjustment_requests MoreSamples.sent MoreSamples.purchaseView
              "-40" "  counted twice "
              (TransactionDetailPage.adjustmentRequest
                 MoreSamples.purchaseView (-40) "  counted twice ")
              eq_refl eq_refl Hs)
    as [Hiff _].
  split.
  - apply Hiff. exists (-40).
    split; [reflexivity|]. split; [discriminate|].
    split; [discriminate|reflexivity].
  - simpl. rewrite !elem_of_cons. auto 10.
Defined.

(** *** Amount fields that do not parse *)

(** X10: the transfer and the redeem forms do not reject an amount field
    that [parseInt] cannot read: both comparisons with [NaN] are false,
    so the transfer page (for a recipient other than the user, found by
    the lookup) and the redeem page post the request with [NaN] as the
    amount. *)
Theorem nan_amount_is_posted (amountField : string) :
  Js.parseInt amountField = None →
  (∀ lookup post user utorid remark rcpt,
     Some utorid ≠ (User.utorid <$> user) →
     lookup utorid = Js.Resolved rcpt →
     Call (mkRequest POST (UserTransactions (TransferPage.id rcpt))
             [("type", JStr "transfer"); ("amount", JNum None);
              ("remark", JStr remark)])
     ∈ TransferPage.handleSubmit lookup post user
         (TransferPage.mkForm utorid amountField remark))
  ∧ (∀ myRedemptions post user remark,
       Call (mkRequest POST MyTransactions
               [("type", JStr "redemption"); ("amount", JNum None);
                ("remark", JStr remark)])
       ∈ RedeemPage.handleSubmit myRedemptions post user
           (RedeemPage.mkForm amountField remark)).
Proof.
  intros Hp. split.
  - intros lookup post user utorid remark rcpt Hne Hl.
    unfold TransferPage.handleSubmit. simpl. rewrite Hp. simpl.
    rewrite bool_decide_eq_false_2 by done. rewrite Hl.
    destruct (post _); simpl; rewrite !elem_of_cons; auto 10.
  - intros myRedemptions post user remark.
    unfold RedeemPage.handleSubmit. simpl. rewrite Hp. simpl.
    destruct (post _); simpl; rewrite !elem_of_cons; auto 10.
Qed.

Lemma nan_amount_is_posted_witness :
  Call (mkRequest POST (UserTransactions 5)
          [("type", JStr "transfer"); ("amount", JNum None);
           ("remark", JStr "")])
  ∈ TransferPage.handleSubmit MoreSamples.bobLookup Samples.accepted
      (Some Samples.aliceView) (TransferPage.mkForm "bobby002" "" "").
Proof.
  apply (proj1 (nan_amount_is_posted "" eq_refl) MoreSamples.bobLookup
           Samples.accepted (Some Samples.aliceView) "bobby002" ""
           (TransferPage.mkLookup 5 "bobby002" "Bob" true)).
  - simpl. discriminate.
  - reflexivity.
Defined.


(** *** Form limits and what the handlers accept *)

(** X12: while the award card is on screen (points remain and there are
    guests) and for safe integers, [handleAwardPoints] sends a request
    exactly for the amounts
    the points input allows, from its [min] of 1 to its [max]
    ([floor(pointsRemaining / guests)] per guest, or [pointsRemaining]
    for one guest), provided a guest is selected in individual mode. *)
Theorem award_form_bounds (post : Request → Js.promise unit AxiosError)
  (ev : Event.t) (guests : list Guest.t)
  (mode : OrganizerEventPage.AwardMode) (sel pts remark : string) (p : Z) :
  OrganizerEventView.awardCardShown ev guests = true →
  Js.parseInt pts = Some p →
  JsNum.safe p → JsNum.safe (OrganizerEventView.pointsRemaining ev) →
  (∃ r, Call r ∈ OrganizerEventPage.handleAwardPoints post (Some ev) guests
                   mode sel pts remark)
  ↔ 1 <= p <= OrganizerEventView.inputMax mode ev guests
    ∧ (mode = OrganizerEventPage.individual → sel ≠ "").
Proof.
  intros Hshown Hp _ _.
  unfold OrganizerEventView.awardCardShown in Hshown.
  apply andb_true_iff in Hshown as [HR Hn].
  apply Z.gtb_lt in HR, Hn.
  unfold OrganizerEventView.pointsRemaining in HR.
  assert (Hcost : OrganizerEventPage.totalCost mode p guests
                  <= default 0 (Event.pointsRemain ev)
                  ↔ p <= OrganizerEventView.inputMax mode ev guests).
  { unfold OrganizerEventPage.totalCost, OrganizerEventView.inputMax,
      OrganizerEventView.pointsRemaining.
    destruct mode; [|done]. split; intros H.
    - apply Z.div_le_lower_bound; [lia|]. rewrite Z.mul_comm. exact H.
    - pose proof (Z.mul_div_le (default 0 (Event.pointsRemain ev))
                    (Z.of_nat (length guests)) Hn). nia. }
  unfold OrganizerEventPage.handleAwardPoints. rewrite Hp.
  destruct (Z.leb_spec p 0) as [Hle|Hpos].
  { split; [intros [r H]; cases_in H | lia]. }
  destruct (Z.gtb_spec (OrganizerEventPage.totalCost mode p guests)
              (default 0 (Event.pointsRemain ev))) as [Hover|Hok].
  { split; [intros [r H]; cases_in H | lia]. }
  assert (Hmax : 1 <= p <= OrganizerEventView.inputMax mode ev guests)
    by lia.
  clear Hcost. destruct mode; simpl.
  - split; [intros _; split; [exact Hmax | discriminate]|].
    intros _. eexists. rewrite !elem_of_cons. right. right. by left.
  - destruct (String.eqb sel "") eqn:Hs.
    + apply string_eqb_true in Hs.
      split; [intros [r H]; cases_in H | intros [_ H]; by destruct H].
    + apply string_eqb_false in Hs.
      split; [intros _; split; [exact Hmax | done]|].
      intros _. eexists. rewrite !elem_of_cons. right. right. by left.
Qed.

Lemma award_form_bounds_witness :
  (∃ r, Call r ∈ OrganizerEventPage.handleAwardPoints Samples.accepted
                   (Some Samples.partyView) Samples.guestViews
                   OrganizerEventPage.all "" "50" "")
  ↔ 1 <= 50 <= OrganizerEventView.inputMax OrganizerEventPage.all
                 Samples.partyView Samples.guestViews
    ∧ (OrganizerEventPage.all = OrganizerEventPage.individual → "" ≠ "").
Proof.
  apply (award_form_bounds Samples.accepted Samples.partyView
           Samples.guestViews OrganizerEventPage.all "" "50" "" 50);
    [reflexivity | reflexivity | vm_compute; split; reflexivity
    | vm_compute; split; reflexivity].
Defined.

(** X13: for an amount field that parses and safe integers, the redeem page posts the
    redemption exactly when the amount is between the input's [min] of 1
    and its [max], the user's points; it posts nothing else, and every
    other request it sends is the refresh of the pending redemption. *)
Theorem redeem_post_iff
  (myRedemptions : Js.promise (list Transaction.t) AxiosError)
  (post : Request → Js.promise unit AxiosError) (u : User.t)
  (form : RedeemPage.FormData) (a : Z) :
  Js.parseInt (RedeemPage.f_amount form) = Some a →
  JsNum.safe a → JsNum.safe (User.points u) →
  ((∃ r, method r = POST
         ∧ Call r ∈ RedeemPage.handleSubmit myRedemptions post (Some u) form)
   ↔ 1 <= a <= User.points u)
  ∧ ∀ r, Call r ∈ RedeemPage.handleSubmit myRedemptions post (Some u) form →
         r = mkRequest POST MyTransactions
               [("type", JStr "redemption"); ("amount", JNum (Some a));
                ("remark", JStr (RedeemPage.f_remark form))]
         ∨ r = RedeemPage.listReq.
Proof.
  intros Hp _ _. unfold RedeemPage.handleSubmit. rewrite Hp. simpl.
  unfold Js.gt. simpl.
  destruct (Z.leb_spec a 0) as [Hle|Hpos].
  { split; [split; [intros (r & _ & H); cases_in H | lia]|].
    intros r H. cases_in H. }
  destruct (Z.ltb_spec (User.points u) a) as [Hover|Hok].
  { split; [split; [intros (r & _ & H); cases_in H | lia]|].
    intros r H. cases_in H. }
  split.
  - split; [intros _; lia|]. intros _.
    exists (mkRequest POST MyTransactions
              [("type", JStr "redemption"); ("amount", JNum (Some a));
               ("remark", JStr (RedeemPage.f_remark form))]).
    split; [reflexivity|].
    destruct (post _); simpl; rewrite !elem_of_cons; right; right; by left.
  - intros r H. unfold RedeemPage.fetchPendingRedemption in H.
    destruct (post _); [destruct myRedemptions|]; simpl in H; cases_in H;
      auto.
Qed.

Lemma redeem_post_iff_witness :
  (∃ r, method r = POST
        ∧ Call r ∈ RedeemPage.handleSubmit (Js.Resolved []) Samples.accepted
                     (Some Samples.aliceView) (RedeemPage.mkForm "61" ""))
  ↔ 1 <= 61 <= User.points Samples.aliceView.
Proof.
  apply (redeem_post_iff (Js.Resolved []) Samples.accepted Samples.aliceView
           (RedeemPage.mkForm "61" "") 61);
    [reflexivity | vm_compute; split; reflexivity
    | vm_compute; split; reflexivity].
Defined.

(** *** Pagination *)

Lemma totalPages_bounds (totalCount : Z) :
  ManagerPromotionsPage.limit * (ManagerPromotionsPage.totalPages totalCount - 1)
  < totalCount
  <= ManagerPromotionsPage.limit * ManagerPromotionsPage.totalPages totalCount.
Proof.
  unfold ManagerPromotionsPage.totalPages, ManagerPromotionsPage.limit.
  pose proof (Z.div_mod (- totalCount) 20 ltac:(lia)).
  pose proof (Z.mod_pos_bound (- totalCount) 20 ltac:(lia)). lia.
Qed.

(** X14: on the promotions list, for every page between 1 and the page
    count, the "Showing a to b of n" line is a non-empty range inside
    1..n of at most 20 rows; it is exactly 20 rows on every page but the
    last, and the last page ends at n. *)
Theorem showing_range (currentPage totalCount : Z) :
  1 <= currentPage <= ManagerPromotionsPage.totalPages totalCount →
  let a := ManagerPromotionsPage.showingFrom currentPage in
  let b := ManagerPromotionsPage.showingTo currentPage totalCount in
  1 <= a <= b ∧ b <= totalCount
  ∧ b - a + 1 <= ManagerPromotionsPage.limit
  ∧ (currentPage < ManagerPromotionsPage.totalPages totalCount →
     b - a + 1 = ManagerPromotionsPage.limit)
  ∧ (currentPage = ManagerPromotionsPage.totalPages totalCount →
     b = totalCount).
Proof.
  intros Hp. pose proof (totalPages_bounds totalCount) as Ht.
  unfold ManagerPromotionsPage.showingFrom, ManagerPromotionsPage.showingTo,
    ManagerPromotionsPage.limit in *.
  simpl. repeat split; intros; lia.
Qed.

Lemma showing_range_witness :
  1 <= ManagerPromotionsPage.showingFrom 3
    <= ManagerPromotionsPage.showingTo 3 45
  ∧ ManagerPromotionsPage.showingTo 3 45 <= 45.
Proof.
  destruct (showing_range 3 45) as (H1 & H2 & _).
  - vm_compute. split; discriminate.
  - split; [exact H1 | exact H2].
Defined.

(** X15: while the pagination controls are shown, Previous and Next keep
    the page between 1 and the page count; each leaves the page where it
    is exactly when its button is disabled; Next followed by Previous
    comes back; and the rows of consecutive pages follow each other with
    no gap and no overlap. *)
Theorem page_navigation (currentPage totalCount : Z) :
  ManagerPromotionsPage.controlsShown totalCount = true →
  1 <= currentPage <= ManagerPromotionsPage.totalPages totalCount →
  1 <= ManagerPromotionsPage.previous currentPage
    <= ManagerPromotionsPage.totalPages totalCount
  ∧ 1 <= ManagerPromotionsPage.next currentPage totalCount
      <= ManagerPromotionsPage.totalPages totalCount
  ∧ (ManagerPromotionsPage.previous currentPage = currentPage
     ↔ ManagerPromotionsPage.previousDisabled currentPage = true)
  ∧ (ManagerPromotionsPage.next currentPage totalCount = currentPage
     ↔ ManagerPromotionsPage.nextDisabled currentPage totalCount = true)
  ∧ (ManagerPromotionsPage.nextDisabled currentPage totalCount = false →
     ManagerPromotionsPage.previous
       (ManagerPromotionsPage.next currentPage totalCount) = currentPage
     ∧ ManagerPromotionsPage.showingFrom
         (ManagerPromotionsPage.next currentPage totalCount)
       = ManagerPromotionsPage.showingTo currentPage totalCount + 1).
Proof.
  intros Hc Hp. unfold ManagerPromotionsPage.controlsShown in Hc.
  apply Z.gtb_lt in Hc.
  pose proof (totalPages_bounds totalCount) as Ht.
  unfold ManagerPromotionsPage.previous, ManagerPromotionsPage.next,
    ManagerPromotionsPage.previousDisabled, ManagerPromotionsPage.nextDisabled,
    ManagerPromotionsPage.showingFrom, ManagerPromotionsPage.showingTo,
    ManagerPromotionsPage.limit in *.
  set (tp := ManagerPromotionsPage.totalPages totalCount) in *.
  rewrite !Z.eqb_eq. split; [lia|]. split; [lia|]. split; [lia|].
  split; [lia|]. intros Hd. apply Z.eqb_neq in Hd. lia.
Qed.

Lemma page_navigation_witness :
  1 <= ManagerPromotionsPage.next 3 45 <= ManagerPromotionsPage.totalPages 45
  ∧ ManagerPromotionsPage.next 3 45 = 3.
Proof.
  destruct (page_navigation 3 45) as (_ & H1 & _ & H2 & _).
  - reflexivity.
  - vm_compute. split; discriminate.
  - split; [exact H1|]. apply H2. reflexivity.
Defined.

(** *** Status badges *)

(** X16: [getEventStatus] shows Upcoming exactly before a valid start and
    Ongoing exactly between a valid start and a valid end (both ends
    included); everything else is Past.  So an event whose start cannot be
    read as a date is always Past, and one whose end cannot be read is
    never Ongoing. *)
Theorem event_status (now : Z) (start end_ : Js.date) :
  let label :=
    PromotionPage.label (OrganizerEventView.getEventStatus now start end_) in
  (label = "Upcoming" ↔ ∃ s, start = Some s ∧ now < s)
  ∧ (label = "Ongoing"
     ↔ ∃ s e, start = Some s ∧ end_ = Some e ∧ s <= now <= e)
  ∧ (label = "Upcoming" ∨ label = "Ongoing" ∨ label = "Past")
  ∧ (start = None → label = "Past")
  ∧ (end_ = None → label ≠ "Ongoing").
Proof.
  unfold OrganizerEventView.getEventStatus, Js.lt, Js.le.
  destruct start as [s|], end_ as [e|]; simpl;
    try destruct (Z.ltb_spec now s); simpl;
    try destruct (Z.leb_spec s now); simpl;
    try destruct (Z.leb_spec now e); simpl;
    repeat split; try done; try lia; eauto;
    try (intros (s' & [= <-] & ?); lia);
    try (intros (s' & e' & [= <-] & [= <-] & ?); lia);
    try (by intros (s' & ? & ?)); try (by intros (s' & e' & ? & ? & ?)).
  intros _. exists s, e. repeat split; lia.
Qed.

(** X17: [getPromotionStatus] shows Unknown exactly when the promotion
    has no [endTime], and Expired exactly when a valid [endTime] lies
    before the current time; a promotion whose [endTime] cannot be read as
    a date is therefore shown as Active at every time. *)
Theorem promotion_status_edges (now : Z) (p : Promotion.t) :
  let label := PromotionPage.label (PromotionPage.getPromotionStatus now p) in
  (label = "Unknown" ↔ Promotion.endTime p = None)
  ∧ (label = "Expired" ↔ ∃ e, Promotion.endTime p = Some (Some e) ∧ e < now)
  ∧ (Promotion.endTime p = Some None → label = "Active").
Proof.
  unfold PromotionPage.getPromotionStatus, Js.gt, Js.lt.
  destruct (Promotion.endTime p) as [[e|]|]; simpl;
    try destruct (Z.ltb_spec e now); simpl;
    repeat split; try done; eauto;
    try (intros (e' & [= <-] & ?); lia);
    try (by intros (e' & ? & ?)).
Qed.

(** *** Approval and the pending redemption *)

(** X18: [handleApproveSuspicious] sends a request exactly when a
    transaction is loaded and the manager confirms: one
    [PATCH /transactions/:id/suspicious] whose body is [suspicious: false];
    it can clear the flag but never set it, and declining the confirmation
    has no effect at all. *)
Theorem approve_requests (send : Fetch → Js.promise unit AxiosError)
  (confirm : string → bool) (transaction : option Transaction.t) :
  (∀ r, PCall r ∈ TransactionDetailPage.handleApproveSuspicious send confirm
                    transaction
        ↔ ∃ t, transaction = Some t
               ∧ confirm "Are you sure you want to approve this suspicious transaction? This will award the points to the user." = true
               ∧ r = TransactionDetailPage.approveRequest t)
  ∧ (∀ r, PCall r ∈ TransactionDetailPage.handleApproveSuspicious send
                      confirm transaction →
          f_method r = PATCH ∧ payload r = [("suspicious", JBool false)])
  ∧ (confirm "Are you sure you want to approve this suspicious transaction? This will award the points to the user." = false →
     TransactionDetailPage.handleApproveSuspicious send confirm transaction
     = []).
Proof.
  assert (Hiff : ∀ r,
    PCall r ∈ TransactionDetailPage.handleApproveSuspicious send confirm
                transaction
    ↔ ∃ t, transaction = Some t
           ∧ confirm "Are you sure you want to approve this suspicious transaction? This will award the points to the user." = true
           ∧ r = TransactionDetailPage.approveRequest t).
  { intros r. unfold TransactionDetailPage.handleApproveSuspicious.
    destruct transaction as [t|].
    - destruct (confirm _) eqn:Hc; simpl.
      + split.
        * intros H. exists t. split; [done|]. split; [done|].
          destruct (send _); simpl in H; cases_in H; done.
        * intros (t' & [= <-] & _ & ->). rewrite !elem_of_cons. auto.
      + split; [intros H; cases_in H|]. intros (t' & _ & Hd & _). done.
    - split; [intros H; cases_in H|]. intros (t' & Hd & _). done. }
  split; [exact Hiff|]. split.
  - intros r H. apply Hiff in H as (t & _ & _ & ->). done.
  - intros Hc. unfold TransactionDetailPage.handleApproveSuspicious.
    destruct transaction; [|done]. by rewrite Hc.
Qed.

(** X19: [fetchPendingRedemption] keeps as pending the first redemption
    of the list that has neither a non-zero [redeemed] nor a non-empty
    [processedBy], and clears the pending state exactly when every
    redemption of the list has one of the two; when the list request is
    rejected the pending state is not touched.  In every case it sends the
    one list request and ends with the loading flag off. *)
Theorem pending_redemption_choice
  (myRedemptions : Js.promise (list Transaction.t) AxiosError) :
  (∀ results,
     myRedemptions = Js.Resolved results →
     (∀ t, SetPendingRedemption (Some t)
           ∈ RedeemPage.fetchPendingRedemption myRedemptions
           ↔ ∃ before after,
               results = (before ++ t :: after)%list
               ∧ RedeemPage.unprocessed t = true
               ∧ Forall (fun x => RedeemPage.unprocessed x = false) before)
     ∧ (SetPendingRedemption None
        ∈ RedeemPage.fetchPendingRedemption myRedemptions
        ↔ Forall (fun x => RedeemPage.unprocessed x = false) results))
  ∧ (∀ e, myRedemptions = Js.Rejected e →
          ∀ p, SetPendingRedemption p
               ∉ RedeemPage.fetchPendingRedemption myRedemptions)
  ∧ (∀ r, Call r ∈ RedeemPage.fetchPendingRedemption myRedemptions
          ↔ r = RedeemPage.listReq)
  ∧ last (RedeemPage.fetchPendingRedemption myRedemptions)
    = Some (SetLoadingRedemption false).
Proof.
  assert (Hfind : ∀ results t,
    List.find RedeemPage.unprocessed results = Some t
    ↔ ∃ before after,
        results = (before ++ t :: after)%list
        ∧ RedeemPage.unprocessed t = true
        ∧ Forall (fun x => RedeemPage.unprocessed x = false) before).
  { induction results as [|x l IH]; intros t; simpl.
    - split; [discriminate|]. intros (b & a & H & _).
      by destruct b.
    - destruct (RedeemPage.unprocessed x) eqn:Hx.
      + split.
        * intros [= <-]. exists [], l. repeat split; [done|].
          apply Forall_nil_2.
        * intros (b & a & H & Ht & Hb). destruct b as [|y b].
          -- by injection H as ->.
          -- injection H as -> _. apply Forall_cons in Hb as [Hy _].
             congruence.
      + rewrite IH. split.
        * intros (b & a & -> & Ht & Hb). exists (x :: b), a.
          repeat split; [done|]. by apply Forall_cons.
        * intros (b & a & H & Ht & Hb). destruct b as [|y b].
          -- injection H as -> _. congruence.
          -- injection H as -> ->. apply Forall_cons in Hb as [_ Hb].
             eauto. }
  assert (Hnone : ∀ results,
    List.find RedeemPage.unprocessed results = None
    ↔ Forall (fun x => RedeemPage.unprocessed x = false) results).
  { induction results as [|x l IH]; simpl.
    - split; [intros _; apply Forall_nil_2 | done].
    - destruct (RedeemPage.unprocessed x) eqn:Hx.
      + split; [discriminate|]. intros H.
        apply Forall_cons in H as [H _]. congruence.
      + rewrite IH. split; [intros H; by apply Forall_cons|].
        intros H. by apply Forall_cons in H as [_ H]. }
  unfold RedeemPage.fetchPendingRedemption.
  split; [|split; [|split]].
  - intros results ->. simpl. split.
    + intros t. rewrite <- Hfind. split.
      * intros H. cases_in H. done.
      * intros ->. rewrite !elem_of_cons. auto.
    + rewrite <- Hnone. split.
      * intros H. cases_in H. done.
      * intros ->. rewrite !elem_of_cons. auto.
  - intros e -> p H. simpl in H. cases_in H.
  - intros r. destruct myRedemptions; simpl; split.
    + intros H. cases_in H. done.
    + intros ->. rewrite !elem_of_cons. auto.
    + intros H. cases_in H. done.
    + intros ->. rewrite !elem_of_cons. auto.
  - by destruct myRedemptions.
Qed.

(** *** Loading a user and toggling the suspicious flag *)



End MoreClientFacts.
